(** * Semantic Markdown Parser: tree builder, post-order chunker, formatter

    A shallow embedding of [src/markdown_parser.py] and
    [src/text_splitter.py].  Python [str] values are Rocq [string]s whose
    characters stand for the code points below 256; Python [int] is [Z];
    [Set[int]] is [gset Z]; lists are lists.  The three collaborators that
    live outside the repository (the tokenizer, llama_index's
    [MarkdownNodeParser] and [SentenceSplitter]) are Section variables. *)

From Stdlib Require Import ZArith String Ascii List Lia Bool.
From stdpp Require Import base list gmap strings.

Open Scope string_scope.
Open Scope Z_scope.

(** ** Python string primitives *)

Module Py.

(** [str.isspace] on one character (code points below 256): TAB, LF, VT, FF,
    CR, FS, GS, RS, US, SPACE, NEL and NBSP. *)
Definition isspace (c : ascii) : bool :=
  let n := nat_of_ascii c in
  ((9 <=? n) && (n <=? 13) || (28 <=? n) && (n <=? 32)
   || (n =? 133) || (n =? 160))%nat.

(** [s.lstrip()] *)
Fixpoint lstrip (s : string) : string :=
  match s with
  | String c s' => if isspace c then lstrip s' else s
  | EmptyString => EmptyString
  end.

(** [s.rstrip()] *)
Fixpoint rstrip (s : string) : string :=
  match s with
  | String c s' =>
      match rstrip s' with
      | EmptyString => if isspace c then EmptyString else String c EmptyString
      | r => String c r
      end
  | EmptyString => EmptyString
  end.

(** [s.strip()] *)
Definition strip (s : string) : string := rstrip (lstrip s).

(** Truthiness of a [str]: non-empty. *)
Definition truthy (s : string) : bool :=
  match s with EmptyString => false | _ => true end.

(** [sep.join(parts)] *)
Fixpoint join (sep : string) (parts : list string) : string :=
  match parts with
  | [] => ""
  | [p] => p
  | p :: rest => p ++ sep ++ join sep rest
  end.

(** [c * n] for a one-character string [c] *)
Fixpoint repeat_char (c : ascii) (n : nat) : string :=
  match n with
  | O => ""
  | S k => String c (repeat_char c k)
  end.

(** [s.startswith(p)] *)
Fixpoint startswith (p s : string) : bool :=
  match p, s with
  | EmptyString, _ => true
  | String a p', String b s' => Ascii.eqb a b && startswith p' s'
  | String _ _, EmptyString => false
  end.

(** [p in s] for strings *)
Fixpoint contains (p s : string) : bool :=
  startswith p s ||
  match s with
  | String _ s' => contains p s'
  | EmptyString => false
  end.

(** [s[n:]] *)
Fixpoint drop_chars (n : nat) (s : string) : string :=
  match n, s with
  | O, _ => s
  | S k, String _ s' => drop_chars k s'
  | S _, EmptyString => EmptyString
  end.

(** The scan behind [s.split(sep)] and [s.count(sep)] for a non-empty
    [sep]: left to right, non-overlapping.  [skip] is the number of
    characters of an already matched separator still to pass over, [cur] the
    piece being accumulated (reversed). *)
Fixpoint split_scan (sep : string) (skip : nat) (cur : list ascii)
    (s : string) : list string :=
  match s with
  | EmptyString => [string_of_list_ascii (rev cur)]
  | String c s' =>
      match skip with
      | S k => split_scan sep k cur s'
      | O =>
          if startswith sep s
          then string_of_list_ascii (rev cur)
               :: split_scan sep (String.length sep - 1) [] s'
          else split_scan sep O (c :: cur) s'
      end
  end.

(** [s.split(sep)]; Python raises [ValueError] on an empty separator, which
    is [None] here. *)
Definition split (sep s : string) : option (list string) :=
  match sep with
  | EmptyString => None
  | _ => Some (split_scan sep O [] s)
  end.

(** [s.split("\n")], whose separator is never empty. *)
Definition split_lines_lf (s : string) : list string :=
  split_scan (String "010" "") O [] s.

Fixpoint count_scan (sep : string) (skip : nat) (s : string) : nat :=
  match s with
  | EmptyString => O
  | String c s' =>
      match skip with
      | S k => count_scan sep k s'
      | O =>
          if startswith sep s
          then S (count_scan sep (String.length sep - 1) s')
          else count_scan sep O s'
      end
  end.

(** [s.count(sep)]; for the empty separator Python answers [len(s) + 1]. *)
Definition count (sep s : string) : nat :=
  match sep with
  | EmptyString => S (String.length s)
  | _ => count_scan sep O s
  end.

(** Line boundaries of [str.splitlines] (code points below 256). *)
Definition is_linebreak (c : ascii) : bool :=
  let n := nat_of_ascii c in
  ((10 <=? n) && (n <=? 13) || (28 <=? n) && (n <=? 30) || (n =? 133))%nat.

(** [s.splitlines()[0]]; [None] is the [IndexError] of the empty list that
    [splitlines] returns for the empty string. *)
Fixpoint first_line_scan (s : string) : string :=
  match s with
  | EmptyString => EmptyString
  | String c s' => if is_linebreak c then EmptyString
                   else String c (first_line_scan s')
  end.

Definition splitlines_first (s : string) : option string :=
  match s with
  | EmptyString => None
  | _ => Some (first_line_scan s)
  end.

(** [s.strip(chars)] for a one-character [chars] *)
Fixpoint lstrip_char (ch : ascii) (s : string) : string :=
  match s with
  | String c s' => if Ascii.eqb c ch then lstrip_char ch s' else s
  | EmptyString => EmptyString
  end.

Fixpoint rstrip_char (ch : ascii) (s : string) : string :=
  match s with
  | String c s' =>
      match rstrip_char ch s' with
      | EmptyString => if Ascii.eqb c ch then EmptyString
                       else String c EmptyString
      | r => String c r
      end
  | EmptyString => EmptyString
  end.

Definition strip_char (ch : ascii) (s : string) : string :=
  rstrip_char ch (lstrip_char ch s).

(** [lst.remove(x)]: drops the first element equal to [x] (the caller checks
    [x in lst] first, so the [ValueError] branch is never taken). *)
Fixpoint list_remove (x : string) (l : list string) : list string :=
  match l with
  | [] => []
  | y :: r => if String.eqb y x then r else y :: list_remove x r
  end.

(** [x in lst] *)
Definition list_contains (x : string) (l : list string) : bool :=
  existsb (String.eqb x) l.

End Py.

Definition LF : string := String "010" "".
Definition blank_line : string := String "010" (String "010" "").

(** ** Data model *)

#[local] Unset Elimination Schemes.

Module TreeElement.
Inductive t : Type := mk {
  header : option string;
  content : string;
  token_length : Z;
  children : list t;
  pages : gset Z
}.
End TreeElement.

#[local] Set Elimination Schemes.

Module SemanticChunk.
Record t : Type := mk {
  content : string;
  token_length : Z;
  headers : list string;
  pages : gset Z
}.
End SemanticChunk.

(** Errors a call can end with. *)
Inductive error : Type :=
| ValueError (msg : string)
| IndexError.

Inductive result (A : Type) : Type :=
| Ok (a : A)
| Raise (e : error).
Arguments Ok {A} a.
Arguments Raise {A} e.

(** A section handed over by the Segment Source: the node's text and its
    [header_path] metadata entry, when it has one. *)
Record section_node : Type := mk_section {
  raw_text : string;
  header_path : option string
}.

(** ** The heading pattern: hashes, white space, then the heading text *)

Fixpoint span_hashes (s : string) : nat * string :=
  match s with
  | String c s' =>
      if Ascii.eqb c "#" then let '(k, r) := span_hashes s' in (S k, r)
      else (O, s)
  | EmptyString => (O, EmptyString)
  end.

(** The text up to the first line feed, and what follows it (line feed
    included). *)
Fixpoint break_lf (s : string) : string * string :=
  match s with
  | String c s' =>
      if Ascii.eqb c "010" then (EmptyString, s)
      else let '(a, b) := break_lf s' in (String c a, b)
  | EmptyString => (EmptyString, EmptyString)
  end.

(** [re.match] of the heading pattern on a line: the two groups when the
    line matches.  Group 1 takes every leading hash (one at least), the
    white-space run takes every white-space character after them (one at
    least), group 2 the rest up to a line feed, and the closing anchor wants
    the end of the string, or its final line feed, there. *)
Definition match_heading (line : string) : option (string * string) :=
  let '(k, rest) := span_hashes line in
  match k, rest with
  | S _, String c _ =>
      if Py.isspace c then
        let '(body, tail) := break_lf (Py.lstrip rest) in
        if String.eqb tail "" || String.eqb tail LF
        then Some (Py.repeat_char "#" k, body) else None
      else None
  | _, _ => None
  end.

(** ** The parser class *)

Section SemanticMarkdownParser.

(** [token_encoder.encode.get_token_length]: the length of the token list of
    a text under the tokenizer loaded from [tokenizer.json]. *)
Variable get_token_length : string -> nat.

(** [MarkdownNodeParser.from_defaults().get_nodes_from_node]: the ordered
    sections of a document. *)
Variable get_nodes_from_node : string -> list section_node.

(** [SentenceSplitter(chunk_size, chunk_overlap=100, tokenizer).split_text] *)
Variable SentenceSplitter_split_text : Z -> string -> list string.

(** *** text_splitter.split_text_into_sentences *)

Definition split_text_into_sentences (text parent_text : string)
    (chunk_size : Z) : list string :=
  let token_length := Z.of_nat (get_token_length text) in
  if token_length <? 10 then []
  else
    let sentences := SentenceSplitter_split_text chunk_size text in
    if Py.truthy parent_text
    then map (fun sentence => parent_text ++ blank_line ++ sentence) sentences
    else sentences.

(** *** parse_markdown_to_tree *)

(** [next((i for i, chunk in enumerate(pages) if first in chunk), -1)] *)
Fixpoint find_page (first : string) (i : Z) (pages : list string) : Z :=
  match pages with
  | [] => -1
  | chunk :: rest =>
      if Py.contains first chunk then i else find_page first (i + 1) rest
  end.

(** The generator evaluates [node_text.splitlines()[0]] once per page it
    visits, so the [IndexError] of an empty [node_text] shows as soon as
    there is a page to visit. *)
Definition page_index_of (pages : list string) (node_text : string)
    : result Z :=
  match pages with
  | [] => Ok (-1)
  | _ =>
      match Py.splitlines_first node_text with
      | None => Raise IndexError
      | Some first => Ok (find_page first 0 pages)
      end
  end.

(** [set(range(lo, hi))] *)
Definition range_set (lo hi : Z) : gset Z :=
  list_to_set (seqZ lo (hi - lo)).

(** The lines of a section after the artifact removal:
    [lines = node_text.split("\n"); if "---" in lines: lines.remove("---")] *)
Definition section_lines (node_text : string) : list string :=
  let lines := Py.split_lines_lf node_text in
  if Py.list_contains "---" lines then Py.list_remove "---" lines else lines.

(** [header_text] and [content] of a section. *)
Definition header_and_content (node_text : string) : option string * string :=
  let lines := section_lines node_text in
  let heading_line :=
    match lines with l0 :: _ => Py.strip l0 | [] => "" end in
  match match_heading heading_line with
  | Some (_, g2) => (Some (Py.strip g2), Py.strip (Py.join LF (tl lines)))
  | None => (None, node_text)
  end.

(** [path_str.strip("/").split("/") if path_str.strip("/") else []] *)
Definition path_parts_of (node : section_node) : list string :=
  let path_str := default "/" (header_path node) in
  let stripped := Py.strip_char "/" path_str in
  if Py.truthy stripped then Py.split_scan "/" O [] stripped else [].

(** The leaf built for one section ([new_child]). *)
Definition new_child_of (page_break : string) (pages : list string)
    (node : section_node) : result TreeElement.t :=
  let node_text := raw_text node in
  let '(header_text, content) := header_and_content node_text in
  match page_index_of pages node_text with
  | Raise e => Raise e
  | Ok page_index =>
      let page_count :=
        range_set page_index
          (page_index + Z.of_nat (Py.count page_break node_text) + 1) in
      Ok (TreeElement.mk header_text content
            (Z.of_nat (get_token_length content)) [] page_count)
  end.

Definition header_is (part : string) (child : TreeElement.t) : bool :=
  match TreeElement.header child with
  | Some h => String.eqb h part
  | None => false
  end.

Definition with_children (e : TreeElement.t) (cs : list TreeElement.t)
    : TreeElement.t :=
  TreeElement.mk (TreeElement.header e) (TreeElement.content e)
    (TreeElement.token_length e) cs (TreeElement.pages e).

(** One step of the path walk inside a child list: the first child whose
    header equals [part] is the one descended into; without one, an empty
    intermediate node is appended and descended into.  [f] is what happens
    below. *)
Fixpoint descend (part : string) (f : TreeElement.t -> TreeElement.t)
    (cs : list TreeElement.t) : list TreeElement.t :=
  match cs with
  | [] => [f (TreeElement.mk (Some part) "" 0 [] ∅)]
  | child :: rest =>
      if header_is part child then f child :: rest
      else child :: descend part f rest
  end.

(** The walk along [path_parts] from [current_element], ending with
    [current_element.children.append(new_child)].  The source mutates the
    tree in place; the tree is owned top-down, so rebuilding the path is the
    same update. *)
Fixpoint append_at (path_parts : list string) (new_child : TreeElement.t)
    (current_element : TreeElement.t) : TreeElement.t :=
  match path_parts with
  | [] =>
      with_children current_element
        (TreeElement.children current_element ++ [new_child])
  | part :: rest =>
      with_children current_element
        (descend part (append_at rest new_child)
           (TreeElement.children current_element))
  end.

(** The body of [for node in parsed_nodes]. *)
Definition add_section (page_break : string) (pages : list string)
    (root : TreeElement.t) (node : section_node) : result TreeElement.t :=
  match new_child_of page_break pages node with
  | Raise e => Raise e
  | Ok new_child => Ok (append_at (path_parts_of node) new_child root)
  end.

Fixpoint add_sections (page_break : string) (pages : list string)
    (root : TreeElement.t) (nodes : list section_node)
    : result TreeElement.t :=
  match nodes with
  | [] => Ok root
  | node :: rest =>
      match add_section page_break pages root node with
      | Raise e => Raise e
      | Ok root' => add_sections page_break pages root' rest
      end
  end.

Definition empty_root : TreeElement.t := TreeElement.mk None "" 0 [] ∅.

Definition parse_markdown_to_tree (markdown_text page_break : string)
    : result TreeElement.t :=
  if negb (Py.truthy (Py.strip markdown_text))
  then Raise (ValueError "Empty markdown text provided")
  else
    let parsed_nodes := get_nodes_from_node markdown_text in
    match Py.split page_break markdown_text with
    | None => Raise (ValueError "empty separator")
    | Some pages =>
        match parsed_nodes with
        | [] => Raise (ValueError "No content found in markdown text")
        | _ => add_sections page_break pages empty_root parsed_nodes
        end
    end.

(** *** get_full_header_path, format_chunk_with_headers *)

(** [" > ".join(filter(None, headers))]: [filter(None, _)] keeps the truthy
    entries; an entry of a [List[str]] is falsy when it is empty. *)
Definition get_full_header_path (headers : list string) : string :=
  Py.join " > " (List.filter Py.truthy headers).

Definition format_chunk_with_headers (headers : list string)
    (content : string) (include_hashes : bool) : string :=
  match headers with
  | [] => content
  | _ =>
      if include_hashes then content
      else get_full_header_path headers ++ blank_line ++ content
  end.

(** *** combine_chunks *)

(** The loop over [zip(chunk1.headers, chunk2.headers)] that stops at the
    first difference. *)
Fixpoint common_prefix_length (h1 h2 : list string) : nat :=
  match h1, h2 with
  | a :: r1, b :: r2 =>
      if String.eqb a b then S (common_prefix_length r1 r2) else O
  | _, _ => O
  end.

Definition list_eqb (h1 h2 : list string) : bool :=
  bool_decide (h1 = h2).

(** [f"{'#' * level} {header}"] *)
Definition heading_line (level : nat) (header : string) : string :=
  Py.repeat_char "#" level ++ " " ++ header.

(** [for level, header in enumerate(unique_headers, start=...)] *)
Fixpoint heading_lines (lead : string) (start : nat)
    (unique_headers : list string) : list string :=
  match unique_headers with
  | [] => []
  | header :: rest =>
      (lead ++ heading_line start header)
        :: heading_lines lead (S start) rest
  end.

Definition unique_heading_lines (lead : string) (p : nat)
    (headers : list string) : list string :=
  if (p <? List.length headers)%nat
  then heading_lines lead (p + 1) (drop p headers)
  else [].

Definition combined_content (chunk1 chunk2 : SemanticChunk.t) : string :=
  let h1 := SemanticChunk.headers chunk1 in
  let h2 := SemanticChunk.headers chunk2 in
  let p := common_prefix_length h1 h2 in
  if list_eqb h1 h2
  then SemanticChunk.content chunk1 ++ blank_line
         ++ SemanticChunk.content chunk2
  else
    Py.join blank_line
      (unique_heading_lines "" p h1 ++ [SemanticChunk.content chunk1]
       ++ unique_heading_lines LF p h2 ++ [SemanticChunk.content chunk2]).

Definition combine_chunks (chunk1 chunk2 : SemanticChunk.t)
    : SemanticChunk.t :=
  let p := common_prefix_length (SemanticChunk.headers chunk1)
             (SemanticChunk.headers chunk2) in
  let combined := combined_content chunk1 chunk2 in
  SemanticChunk.mk combined (Z.of_nat (get_token_length combined))
    (take p (SemanticChunk.headers chunk1))
    (SemanticChunk.pages chunk1 ∪ SemanticChunk.pages chunk2).

(** *** process_tree_to_chunks *)

(** [child_headers = current_headers.copy(); if child.header: append] *)
Definition child_headers_of (current_headers : list string)
    (child : TreeElement.t) : list string :=
  match TreeElement.header child with
  | Some h => if Py.truthy h then current_headers ++ [h] else current_headers
  | None => current_headers
  end.

(** Step 2: the chunks of the node's own content. *)
Definition own_chunks (root : TreeElement.t) (max_tokens : Z)
    (current_headers : list string) : list SemanticChunk.t :=
  if Py.truthy (Py.strip (TreeElement.content root)) then
    if max_tokens <? TreeElement.token_length root then
      map (fun content =>
             SemanticChunk.mk content (Z.of_nat (get_token_length content))
               current_headers (TreeElement.pages root))
          (split_text_into_sentences (TreeElement.content root) "" 500)
    else
      [SemanticChunk.mk (TreeElement.content root)
         (TreeElement.token_length root) current_headers
         (TreeElement.pages root)]
  else [].

(** Step 3, the loop with [current_chunk] already set. *)
Fixpoint merge_from (max_tokens : Z) (current_chunk : SemanticChunk.t)
    (chunks : list SemanticChunk.t) : list SemanticChunk.t :=
  match chunks with
  | [] => [current_chunk]
  | chunk :: rest =>
      let potential_combined := combine_chunks current_chunk chunk in
      if SemanticChunk.token_length potential_combined <=? max_tokens
      then merge_from max_tokens potential_combined rest
      else current_chunk :: merge_from max_tokens chunk rest
  end.

(** Step 3: [current_chunk] starts as [None]. *)
Definition merge_chunks (max_tokens : Z) (chunks : list SemanticChunk.t)
    : list SemanticChunk.t :=
  match chunks with
  | [] => []
  | chunk :: rest => merge_from max_tokens chunk rest
  end.

Fixpoint process_tree_to_chunks (root : TreeElement.t) (max_tokens : Z)
    (current_headers : list string) {struct root} : list SemanticChunk.t :=
  let chunks :=
    (flat_map
       (fun child =>
          process_tree_to_chunks child max_tokens
            (child_headers_of current_headers child))
       (TreeElement.children root)
     ++ own_chunks root max_tokens current_headers)%list in
  merge_chunks max_tokens chunks.

(** The working list [chunks] as it stands when the merge pass starts. *)
Definition chunks_before_merge (root : TreeElement.t) (max_tokens : Z)
    (current_headers : list string) : list SemanticChunk.t :=
  flat_map
    (fun child =>
       process_tree_to_chunks child max_tokens
         (child_headers_of current_headers child))
    (TreeElement.children root)
  ++ own_chunks root max_tokens current_headers.

(** *** get_semantic_chunks *)

Definition get_semantic_chunks (root : TreeElement.t) (max_tokens : Z)
    : list string :=
  map (fun chunk =>
         format_chunk_with_headers (SemanticChunk.headers chunk)
           (SemanticChunk.content chunk) false)
      (process_tree_to_chunks root max_tokens []).

End SemanticMarkdownParser.

(** ** Stand-ins for the collaborators, for concrete runs *)

(** Modelled from the spec: the tokenizer's vocabulary ([tokenizer.json]) is
    not part of the sources; this is the test tokenizer of the spec's
    testable properties, where the token length of a text is its
    white-space-delimited word count. *)
Fixpoint word_count_from (in_word : bool) (s : string) : nat :=
  match s with
  | EmptyString => O
  | String c s' =>
      if Py.isspace c then word_count_from false s'
      else if in_word then word_count_from true s'
      else S (word_count_from true s')
  end.

Definition word_count (s : string) : nat := word_count_from false s.

(** A sentence splitter on a text that fits its chunk size: the text comes
    back as one group. *)
Definition one_group_splitter (chunk_size : Z) (text : string)
    : list string := [text].

(** A Segment Source answer for a document it sees as one root-level
    section. *)
Definition one_section_source (document : string) : list section_node :=
  [mk_section document (Some "/")].

(** ** Definitions the statements below are phrased with *)

(** Induction over a tree, children included. *)
Section TreeInduction.
Variable P : TreeElement.t -> Prop.
Hypothesis node_case :
  forall h c tl cs pg, Forall P cs -> P (TreeElement.mk h c tl cs pg).

Fixpoint tree_ind (t : TreeElement.t) : P t :=
  match t with
  | TreeElement.mk h c tl cs pg =>
      node_case h c tl cs pg
        ((fix all (l : list TreeElement.t) : Forall P l :=
            match l with
            | [] => List.Forall_nil P
            | x :: r => List.Forall_cons P x r (tree_ind x) (all r)
            end) cs)
  end.
End TreeInduction.

(** The inline heading lines of the combine algorithm, by position: the
    header at index [p + i] of the path is rendered with [p + i + 1] hash
    marks, after [lead]. *)
Definition inline_headings (lead : string) (p : nat) (headers : list string)
    : list string :=
  imap (fun i header =>
          lead ++ Py.repeat_char "#" (p + i + 1) ++ " " ++ header)
       (drop p headers).

(** The combined content as the combine algorithm is worded: the same
    heading pattern on both sides. *)
Definition combined_content_same_pattern (a b : SemanticChunk.t) : string :=
  let p := common_prefix_length (SemanticChunk.headers a)
             (SemanticChunk.headers b) in
  if list_eqb (SemanticChunk.headers a) (SemanticChunk.headers b)
  then SemanticChunk.content a ++ blank_line ++ SemanticChunk.content b
  else
    Py.join blank_line
      (inline_headings "" p (SemanticChunk.headers a)
       ++ [SemanticChunk.content a]
       ++ inline_headings "" p (SemanticChunk.headers b)
       ++ [SemanticChunk.content b]).

(** A chunk with its [token_length] field replaced. *)
Definition with_token_length (n : Z) (c : SemanticChunk.t) : SemanticChunk.t :=
  SemanticChunk.mk (SemanticChunk.content c) n (SemanticChunk.headers c)
    (SemanticChunk.pages c).

(** Every header a chunk carries is a non-empty string. *)
Definition headers_truthy (c : SemanticChunk.t) : Prop :=
  Forall (fun h => Py.truthy h = true) (SemanticChunk.headers c).

(** [grown_from tok c y]: the accumulator [y] started as the chunk [c] and
    then absorbed zero or more chunks, one [combine_chunks] at a time. *)
Inductive grown_from (tok : string -> nat) (c : SemanticChunk.t)
    : SemanticChunk.t -> Prop :=
| grown_start : grown_from tok c c
| grown_absorb y d :
    grown_from tok c y -> grown_from tok c (combine_chunks tok y d).

(** The sentence groups the Fallback Splitter returns for the oversized
    contents of a subtree. *)
Fixpoint fallback_groups (tok : string -> nat)
    (splitter : Z -> string -> list string) (max_tokens : Z)
    (t : TreeElement.t) : list string :=
  ((if Py.truthy (Py.strip (TreeElement.content t))
       && (max_tokens <? TreeElement.token_length t)
    then split_text_into_sentences tok splitter (TreeElement.content t) "" 500
    else [])
   ++ flat_map (fallback_groups tok splitter max_tokens)
        (TreeElement.children t))%list.

(** Tokens spent on the inline headings of the headers from index [q] on. *)
Definition headings_cost (tok : string -> nat) (q : nat)
    (headers : list string) : nat :=
  sum_list (map tok (heading_lines "" (q + 1) (drop q headers))).

(** An output chunk over the budget is a sentence group of the subtree. *)
Definition is_fallback_group (tok : string -> nat)
    (splitter : Z -> string -> list string) (max_tokens : Z)
    (t : TreeElement.t) (c : SemanticChunk.t) : Prop :=
  SemanticChunk.content c ∈ fallback_groups tok splitter max_tokens t
  /\ SemanticChunk.token_length c
     = Z.of_nat (tok (SemanticChunk.content c)).

(** What an accumulator keeps of the chunk it started from: a prefix of
    its header path, and at every depth of that prefix at least its tokens. *)
Definition dominates (tok : string -> nat) (c y : SemanticChunk.t) : Prop :=
  SemanticChunk.headers y `prefix_of` SemanticChunk.headers c
  /\ forall q, (q <= List.length (SemanticChunk.headers y))%nat ->
       (tok (SemanticChunk.content c)
        + headings_cost tok q (SemanticChunk.headers c)
        <= tok (SemanticChunk.content y)
           + headings_cost tok q (SemanticChunk.headers y))%nat.

(** The rendering of a final chunk as the formatter is worded, for a header
    list that holds no null entry. *)
Definition rendered (headers : list string) (content : string) : string :=
  match headers with
  | [] => content
  | _ => Py.join " > " headers ++ blank_line ++ content
  end.

(** What a node carries besides its children. *)
Definition node_label : Type := option string * string * Z * gset Z.

Definition label_of (t : TreeElement.t) : node_label :=
  (TreeElement.header t, TreeElement.content t, TreeElement.token_length t,
   TreeElement.pages t).

(** The labels of all the nodes of a tree, parents first. *)
Fixpoint tree_labels (t : TreeElement.t) : list node_label :=
  label_of t :: flat_map tree_labels (TreeElement.children t).

(** No line of a section's text is a heading line. *)
Definition heading_free (node_text : string) : Prop :=
  Forall (fun line => match_heading (Py.strip line) = None)
    (Py.split_lines_lf node_text).

(** ** Concrete inputs *)

Definition default_page_break : string := LF ++ "---" ++ LF.

(** The tree of the heading-less document [Hello world.]. *)
Definition hello_tree : TreeElement.t :=
  TreeElement.mk None "" 0
    [TreeElement.mk None "Hello world." 2 [] {[ 0 ]}] ∅.

(** The Segment Source's answer for the document made of the heading
    [#<TAB>Title] and the line [body]: one root-level section whose heading
    line is written with a single space after the hash. *)
Definition tab_heading_document : string :=
  String "#" (String "009" ("Title" ++ LF ++ "body")).
Definition respaced_source (document : string) : list section_node :=
  [mk_section ("# Title" ++ LF ++ "body") (Some "/")].

(** A Segment Source answer holding a section without text. *)
Definition empty_section_source (document : string) : list section_node :=
  [mk_section "" (Some "/")].

(** A section that spans three pages: two page breaks inside its text. *)
Definition three_page_section : string :=
  "# T" ++ LF ++ "a" ++ LF ++ "---" ++ LF ++ "b" ++ LF ++ "---" ++ LF ++ "c".

(** A leaf as the parser builds it under the word-count tokenizer: twelve
    words of content, twelve tokens. *)
Definition twelve_words : string := "a b c d e f g h i j k l".
Definition twelve_word_leaf : TreeElement.t :=
  TreeElement.mk None twelve_words 12 [] ∅.

(** The tree of the two-subsection document: [Title] without text of its
    own, [A] with two words and [B] with three. *)
Definition two_section_tree : TreeElement.t :=
  TreeElement.mk None "" 0
    [TreeElement.mk (Some "Title") "" 0
       [TreeElement.mk (Some "A") "word1 word2" 2 [] ∅;
        TreeElement.mk (Some "B") "word3 word4 word5" 3 [] ∅] ∅] ∅.

(** A node with text of its own before its subsection [A]: in the document
    the text [intro] comes first. *)
Definition intro_then_subsection : TreeElement.t :=
  TreeElement.mk (Some "T") "intro" 1
    [TreeElement.mk (Some "A") "body" 1 [] ∅] ∅.

Definition chunk_A : SemanticChunk.t := SemanticChunk.mk "one" 1 ["A"] ∅.
Definition chunk_B : SemanticChunk.t := SemanticChunk.mk "two" 1 ["B"] ∅.

(** ** combine_chunks *)

Section Combine.
Variable get_token_length : string -> nat.

Lemma common_prefix_length_take (h1 h2 : list string) :
  take (common_prefix_length h1 h2) h1 = take (common_prefix_length h1 h2) h2.
Proof.
  revert h2; induction h1 as [|a r1 IH]; intros [|b r2]; simpl; try reflexivity.
  destruct (String.eqb_spec a b) as [->|_]; simpl; [|reflexivity].
  f_equal; apply IH.
Qed.

Lemma common_prefix_length_le_l (h1 h2 : list string) :
  (common_prefix_length h1 h2 <= List.length h1)%nat.
Proof.
  revert h2; induction h1 as [|a r1 IH]; intros [|b r2]; simpl; try lia.
  destruct (String.eqb a b); simpl; [|lia]. specialize (IH r2); lia.
Qed.

Lemma common_prefix_length_le_r (h1 h2 : list string) :
  (common_prefix_length h1 h2 <= List.length h2)%nat.
Proof.
  revert h2; induction h1 as [|a r1 IH]; intros [|b r2]; simpl; try lia.
  destruct (String.eqb a b); simpl; [|lia]. specialize (IH r2); lia.
Qed.

Lemma common_prefix_length_refl (h : list string) :
  common_prefix_length h h = List.length h.
Proof.
  induction h as [|a r IH]; simpl; [reflexivity|].
  rewrite String.eqb_refl, IH; reflexivity.
Qed.

(** Any common prefix is no longer than the counted one. *)
Lemma common_prefix_length_max (l h1 h2 : list string) :
  l `prefix_of` h1 -> l `prefix_of` h2 ->
  (List.length l <= common_prefix_length h1 h2)%nat.
Proof.
  revert h1 h2; induction l as [|x l IH]; intros h1 h2 [k1 ->] [k2 ->];
    simpl; [lia|].
  rewrite String.eqb_refl.
  apply le_n_S, IH; eexists; reflexivity.
Qed.

Lemma heading_lines_inline (lead : string) (start : nat) (l : list string) :
  heading_lines lead start l =
  imap (fun i header =>
          lead ++ Py.repeat_char "#" (start + i) ++ " " ++ header) l.
Proof.
  revert start; induction l as [|h r IH]; intros start; simpl; [reflexivity|].
  unfold heading_line at 1. rewrite Nat.add_0_r. f_equal.
  rewrite IH. apply imap_ext; intros i x _; unfold compose.
  replace (start + S i)%nat with (S start + i)%nat by lia. reflexivity.
Qed.

Lemma unique_heading_lines_inline (lead : string) (p : nat)
    (headers : list string) :
  unique_heading_lines lead p headers = inline_headings lead p headers.
Proof.
  unfold unique_heading_lines, inline_headings.
  destruct (Nat.ltb_spec p (List.length headers)) as [Hlt|Hge].
  - rewrite heading_lines_inline. apply imap_ext; intros i x _.
    replace (p + 1 + i)%nat with (p + i + 1)%nat by lia. reflexivity.
  - rewrite drop_ge by exact Hge. reflexivity.
Qed.

(** C3. For every pair of chunks, the combined chunk's headers are the
    longest common prefix of the two header lists (a prefix of both, and
    every common prefix is a prefix of it), its pages are the union of the
    two page sets, and its token length is the tokenizer's count of the
    combined content: the token lengths carried by the inputs are not
    read. *)
Theorem combine_chunks_headers_pages_length (a b : SemanticChunk.t) :
  let c := combine_chunks get_token_length a b in
  SemanticChunk.headers c `prefix_of` SemanticChunk.headers a
  /\ SemanticChunk.headers c `prefix_of` SemanticChunk.headers b
  /\ (forall l, l `prefix_of` SemanticChunk.headers a ->
                l `prefix_of` SemanticChunk.headers b ->
                l `prefix_of` SemanticChunk.headers c)
  /\ SemanticChunk.headers c
     = take (common_prefix_length (SemanticChunk.headers a)
               (SemanticChunk.headers b)) (SemanticChunk.headers a)
  /\ SemanticChunk.pages c = SemanticChunk.pages a ∪ SemanticChunk.pages b
  /\ SemanticChunk.token_length c
     = Z.of_nat (get_token_length (SemanticChunk.content c))
  /\ (forall n m,
        combine_chunks get_token_length (with_token_length n a)
          (with_token_length m b) = c).
Proof.
  destruct a as [ca ta ha pa], b as [cb tb hb pb]; simpl. repeat split.
  - apply prefix_take.
  - rewrite common_prefix_length_take. apply prefix_take.
  - intros l Ha Hb.
    pose proof (common_prefix_length_max l _ _ Ha Hb) as Hlen.
    destruct Ha as [k ->].
    rewrite take_app_ge by exact Hlen.
    apply prefix_app_r. reflexivity.
Qed.

(** C4 (amended). With equal header lists the combined content is the
    first content, a blank line, the second content.  Otherwise it is the
    blank-line join of: one heading line per header of the first chunk beyond
    the common prefix, each with as many hash marks as its level; the first
    content; one heading line per header of the second chunk beyond the
    prefix, built the same way but each preceded by one more line feed; the
    second content. *)
Theorem combine_chunks_content (a b : SemanticChunk.t) :
  let p := common_prefix_length (SemanticChunk.headers a)
             (SemanticChunk.headers b) in
  (SemanticChunk.headers a = SemanticChunk.headers b ->
   SemanticChunk.content (combine_chunks get_token_length a b)
   = SemanticChunk.content a ++ blank_line ++ SemanticChunk.content b)
  /\ (SemanticChunk.headers a <> SemanticChunk.headers b ->
      SemanticChunk.content (combine_chunks get_token_length a b)
      = Py.join blank_line
          (inline_headings "" p (SemanticChunk.headers a)
           ++ [SemanticChunk.content a]
           ++ inline_headings LF p (SemanticChunk.headers b)
           ++ [SemanticChunk.content b])).
Proof.
  simpl; unfold combined_content, list_eqb; split; intros H.
  - rewrite bool_decide_eq_true_2 by exact H. reflexivity.
  - rewrite bool_decide_eq_false_2 by exact H.
    rewrite !unique_heading_lines_inline. reflexivity.
Qed.

End Combine.

(** C4 (as stated) fails: with headers [A] and [B] the heading of the second
    chunk follows two blank lines, not one, so the combined content is not
    the one the same pattern on both sides would give. *)
Lemma combine_chunks_content_not_same_pattern :
  SemanticChunk.content (combine_chunks word_count chunk_A chunk_B)
  = "# A" ++ blank_line ++ "one" ++ blank_line ++ LF ++ "# B"
      ++ blank_line ++ "two"
  /\ combined_content_same_pattern chunk_A chunk_B
     = "# A" ++ blank_line ++ "one" ++ blank_line ++ "# B"
         ++ blank_line ++ "two"
  /\ SemanticChunk.content (combine_chunks word_count chunk_A chunk_B)
     <> combined_content_same_pattern chunk_A chunk_B.
Proof.
  split; [reflexivity|]. split; [reflexivity|]. discriminate.
Qed.

(** The hypotheses of the amended C4 hold at concrete chunks. *)
Lemma combine_chunks_content_witness :
  SemanticChunk.content (combine_chunks word_count chunk_A chunk_A)
  = "one" ++ blank_line ++ "one"
  /\ SemanticChunk.content (combine_chunks word_count chunk_A chunk_B)
     = "# A" ++ blank_line ++ "one" ++ blank_line ++ LF ++ "# B"
         ++ blank_line ++ "two".
Proof.
  split.
  - apply (proj1 (combine_chunks_content word_count chunk_A chunk_A)).
    reflexivity.
  - apply (proj2 (combine_chunks_content word_count chunk_A chunk_B)).
    discriminate.
Defined.

(** ** process_tree_to_chunks: the working list *)

Section Chunker.
Variable get_token_length : string -> nat.
Variable SentenceSplitter_split_text : Z -> string -> list string.

#[local] Abbreviation process :=
  (process_tree_to_chunks get_token_length SentenceSplitter_split_text).
#[local] Abbreviation before_merge :=
  (chunks_before_merge get_token_length SentenceSplitter_split_text).
#[local] Abbreviation own :=
  (own_chunks get_token_length SentenceSplitter_split_text).
#[local] Abbreviation combine := (combine_chunks get_token_length).
#[local] Abbreviation merge := (merge_chunks get_token_length).

Lemma process_unfold (root : TreeElement.t) (max_tokens : Z)
    (current_headers : list string) :
  process root max_tokens current_headers
  = merge max_tokens (before_merge root max_tokens current_headers).
Proof. destruct root; reflexivity. Qed.

(** C2. A node whose own content is non-blank and whose token length is
    within the budget contributes exactly one chunk to the working list, after
    the chunks of its children: the content verbatim, the node's token
    length, the current header path and the node's pages.  That chunk, the
    only one step 2 emits without the Fallback Splitter, is within the
    budget. *)
Theorem own_content_within_budget (root : TreeElement.t) (max_tokens : Z)
    (current_headers : list string) :
  Py.truthy (Py.strip (TreeElement.content root)) = true ->
  TreeElement.token_length root <= max_tokens ->
  let chunk :=
    SemanticChunk.mk (TreeElement.content root)
      (TreeElement.token_length root) current_headers
      (TreeElement.pages root) in
  own root max_tokens current_headers = [chunk]
  /\ before_merge root max_tokens current_headers
     = (flat_map
          (fun child =>
             process child max_tokens
               (child_headers_of current_headers child))
          (TreeElement.children root) ++ [chunk])%list
  /\ process root max_tokens current_headers
     = merge max_tokens
         (flat_map
            (fun child =>
               process child max_tokens
                 (child_headers_of current_headers child))
            (TreeElement.children root) ++ [chunk])%list
  /\ SemanticChunk.token_length chunk <= max_tokens.
Proof.
  intros Hcontent Hfit chunk.
  assert (Hown : own root max_tokens current_headers = [chunk]).
  { unfold own_chunks. rewrite Hcontent.
    destruct (Z.ltb_spec max_tokens (TreeElement.token_length root));
      [lia | reflexivity]. }
  split; [exact Hown|]. split; [|split].
  - unfold chunks_before_merge. rewrite Hown. reflexivity.
  - rewrite process_unfold. unfold chunks_before_merge. rewrite Hown.
    reflexivity.
  - exact Hfit.
Qed.

(** C9. The working list the merge pass starts from is the chunks of the
    children's subtrees, child after child, followed by the chunks of the
    node's own content: every chunk that comes from a descendant stands at a
    smaller index than every chunk of the node's own content. *)
Theorem descendants_before_own_content (root : TreeElement.t)
    (max_tokens : Z) (current_headers : list string) :
  let chunks := before_merge root max_tokens current_headers in
  let from_children :=
    concat
      (map (fun child =>
              process child max_tokens
                (child_headers_of current_headers child))
           (TreeElement.children root)) in
  let from_own := own root max_tokens current_headers in
  chunks = (from_children ++ from_own)%list
  /\ process root max_tokens current_headers = merge max_tokens chunks
  /\ (forall i j c d,
        from_children !! i = Some c -> from_own !! j = Some d ->
        chunks !! i = Some c
        /\ chunks !! (List.length from_children + j)%nat = Some d
        /\ (i < List.length from_children + j)%nat).
Proof.
  intros chunks from_children from_own.
  assert (Heq : chunks = (from_children ++ from_own)%list).
  { unfold chunks, chunks_before_merge, from_children.
    rewrite flat_map_concat_map. reflexivity. }
  split; [exact Heq|]. split; [apply process_unfold|].
  intros i j c d Hc Hd. rewrite Heq. split; [|split].
  - apply lookup_app_l_Some. exact Hc.
  - rewrite lookup_app_r by lia.
    replace (List.length from_children + j - List.length from_children)%nat
      with j by lia. exact Hd.
  - apply lookup_lt_Some in Hc. lia.
Qed.

(** *** What the merge pass keeps *)

Lemma merge_from_Forall (P : SemanticChunk.t -> Prop) (max_tokens : Z) :
  (forall a b, P a -> P b -> P (combine a b)) ->
  forall chunks current_chunk,
    P current_chunk -> Forall P chunks ->
    Forall P (merge_from get_token_length max_tokens current_chunk chunks).
Proof.
  intros Hcomb chunks; induction chunks as [|c r IH];
    intros acc Hacc Hall; simpl.
  - apply Forall_cons; split; [exact Hacc | apply Forall_nil_2].
  - apply Forall_cons in Hall as [Hc Hr].
    destruct (_ <=? _).
    + apply IH; [apply Hcomb; assumption | exact Hr].
    + apply Forall_cons; split; [exact Hacc | apply IH; assumption].
Qed.

Lemma merge_Forall (P : SemanticChunk.t -> Prop) (max_tokens : Z) :
  (forall a b, P a -> P b -> P (combine a b)) ->
  forall chunks, Forall P chunks -> Forall P (merge max_tokens chunks).
Proof.
  intros Hcomb [|c r] Hall; simpl; [apply Forall_nil_2|].
  apply Forall_cons in Hall as [Hc Hr].
  apply merge_from_Forall; assumption.
Qed.

Lemma child_headers_truthy (current_headers : list string)
    (child : TreeElement.t) :
  Forall (fun h => Py.truthy h = true) current_headers ->
  Forall (fun h => Py.truthy h = true)
    (child_headers_of current_headers child).
Proof.
  intros H. unfold child_headers_of.
  destruct (TreeElement.header child) as [h|]; [|exact H].
  destruct (Py.truthy h) eqn:Hh; [|exact H].
  apply Forall_app; split; [exact H|].
  apply Forall_cons; split; [exact Hh | apply Forall_nil_2].
Qed.

Lemma own_headers (root : TreeElement.t) (max_tokens : Z)
    (current_headers : list string) :
  Forall (fun c => SemanticChunk.headers c = current_headers)
    (own root max_tokens current_headers).
Proof.
  unfold own_chunks.
  destruct (Py.truthy _); [|apply Forall_nil_2].
  destruct (_ <? _).
  - apply Forall_forall; intros c Hc.
    apply list_elem_of_fmap in Hc as [g [-> _]]. reflexivity.
  - apply Forall_cons; split; [reflexivity | apply Forall_nil_2].
Qed.

Lemma process_headers_truthy (root : TreeElement.t) (max_tokens : Z) :
  forall current_headers,
    Forall (fun h => Py.truthy h = true) current_headers ->
    Forall headers_truthy (process root max_tokens current_headers).
Proof.
  induction root as [h c tl cs pg IH] using tree_ind.
  intros current_headers Hcur. rewrite process_unfold.
  apply merge_Forall.
  - intros a b Ha _. unfold headers_truthy; simpl.
    apply Forall_take. exact Ha.
  - unfold chunks_before_merge; simpl. apply Forall_app; split.
    + induction IH as [|child r Hchild _ IHr]; simpl; [apply Forall_nil_2|].
      apply Forall_app; split; [|exact IHr].
      apply Hchild, child_headers_truthy, Hcur.
    + eapply Forall_impl; [apply own_headers|].
      intros x Hx; unfold headers_truthy; simpl in Hx; rewrite Hx.
      exact Hcur.
Qed.

End Chunker.

(** ** The greedy merge pass *)

Section MergePass.
Variable get_token_length : string -> nat.
Variable SentenceSplitter_split_text : Z -> string -> list string.

#[local] Abbreviation tok := get_token_length.
#[local] Abbreviation process :=
  (process_tree_to_chunks get_token_length SentenceSplitter_split_text).
#[local] Abbreviation combine := (combine_chunks get_token_length).
#[local] Abbreviation merge := (merge_chunks get_token_length).
#[local] Abbreviation merge_loop := (merge_from get_token_length).
#[local] Abbreviation groups :=
  (fallback_groups get_token_length SentenceSplitter_split_text).

(** *** Token lengths of the output *)

Lemma merge_from_within_or (R : SemanticChunk.t -> Prop) (max_tokens : Z) :
  forall chunks current_chunk,
    SemanticChunk.token_length current_chunk <= max_tokens \/ R current_chunk ->
    Forall (fun c => SemanticChunk.token_length c <= max_tokens \/ R c)
      chunks ->
    Forall (fun c => SemanticChunk.token_length c <= max_tokens \/ R c)
      (merge_loop max_tokens current_chunk chunks).
Proof.
  induction chunks as [|c r IH]; intros acc Hacc Hall; cbn [merge_from].
  - apply Forall_cons; split; [exact Hacc | apply Forall_nil_2].
  - apply Forall_cons in Hall as [Hc Hr].
    destruct (Z.leb_spec
      (SemanticChunk.token_length (combine acc c)) max_tokens) as [Hfit|_].
    + apply IH; [left; exact Hfit | exact Hr].
    + apply Forall_cons; split; [exact Hacc | apply IH; assumption].
Qed.

Lemma merge_within_or (R : SemanticChunk.t -> Prop) (max_tokens : Z)
    (chunks : list SemanticChunk.t) :
  Forall (fun c => SemanticChunk.token_length c <= max_tokens \/ R c) chunks ->
  Forall (fun c => SemanticChunk.token_length c <= max_tokens \/ R c)
    (merge max_tokens chunks).
Proof.
  destruct chunks as [|c r]; intros Hall; simpl; [apply Forall_nil_2|].
  apply Forall_cons in Hall as [Hc Hr].
  apply merge_from_within_or; assumption.
Qed.

Lemma own_within_or_fallback (h : option string) (c : string) (tl : Z)
    (cs : list TreeElement.t) (pg : gset Z) (max_tokens : Z)
    (current_headers : list string) :
  Forall
    (fun k => SemanticChunk.token_length k <= max_tokens
              \/ is_fallback_group get_token_length SentenceSplitter_split_text
                   max_tokens (TreeElement.mk h c tl cs pg) k)
    (own_chunks get_token_length SentenceSplitter_split_text
       (TreeElement.mk h c tl cs pg) max_tokens current_headers).
Proof.
  unfold own_chunks, is_fallback_group; simpl.
  destruct (Py.truthy (Py.strip c)); [|apply Forall_nil_2].
  destruct (Z.ltb_spec max_tokens tl) as [Hbig|Hfit]; simpl.
  - apply Forall_forall; intros k Hk.
    apply list_elem_of_fmap in Hk as [g [-> Hg]]. right; simpl.
    split; [|reflexivity]. apply elem_of_app; left; exact Hg.
  - apply Forall_cons; split; [left; exact Hfit | apply Forall_nil_2].
Qed.

Lemma process_within_or_fallback (max_tokens : Z) (root : TreeElement.t) :
  forall current_headers,
    Forall
      (fun k => SemanticChunk.token_length k <= max_tokens
                \/ is_fallback_group get_token_length SentenceSplitter_split_text
                   max_tokens root k)
      (process root max_tokens current_headers).
Proof.
  induction root as [h c tl cs pg IH] using tree_ind.
  intros current_headers.
  rewrite (process_unfold get_token_length SentenceSplitter_split_text).
  apply merge_within_or. unfold chunks_before_merge.
  apply Forall_app; split; [|apply own_within_or_fallback].
  cbn [TreeElement.children].
  assert (Hsub : forall g,
    g ∈ flat_map (groups max_tokens) cs ->
    g ∈ groups max_tokens (TreeElement.mk h c tl cs pg)).
  { intros g Hg. cbn [fallback_groups TreeElement.children].
    apply elem_of_app; right; exact Hg. }
  revert Hsub. generalize (TreeElement.mk h c tl cs pg) as node.
  intros node.
  induction IH as [|child r Hchild _ IHr]; intros Hsub; simpl;
    [apply Forall_nil_2|].
  apply Forall_app; split.
  - eapply Forall_impl; [apply Hchild|].
    intros k [Hk|[Hk1 Hk2]]; [left; exact Hk|right].
    split; [|exact Hk2]. apply Hsub; simpl.
    apply elem_of_app; left; exact Hk1.
  - apply IHr. intros g Hg. apply Hsub; simpl.
    apply elem_of_app; right; exact Hg.
Qed.

(** *** Adjacent chunks of the output *)

Lemma merge_from_head (max_tokens : Z) :
  forall chunks current_chunk,
    exists y rest,
      merge_loop max_tokens current_chunk chunks = y :: rest
      /\ grown_from tok current_chunk y.
Proof.
  induction chunks as [|c r IH]; intros acc; cbn [merge_from].
  - exists acc, []; split; [reflexivity | constructor].
  - destruct (_ <=? _).
    + destruct (IH (combine acc c)) as (y & rest & Heq & Hgrown).
      exists y, rest; split; [exact Heq|].
      clear Heq. induction Hgrown; [apply grown_absorb, grown_start|].
      apply grown_absorb; assumption.
    + exists acc, (merge_loop max_tokens c r); split;
        [reflexivity | constructor].
Qed.

Lemma merge_from_adjacent (max_tokens : Z) :
  forall chunks current_chunk i x y,
    merge_loop max_tokens current_chunk chunks !! i = Some x ->
    merge_loop max_tokens current_chunk chunks !! S i = Some y ->
    exists c, grown_from tok c y
              /\ max_tokens < SemanticChunk.token_length (combine x c).
Proof.
  induction chunks as [|c r IH]; intros acc i x y; cbn [merge_from].
  - intros _ Hy. destruct i; discriminate Hy.
  - destruct (Z.leb_spec
      (SemanticChunk.token_length (combine acc c)) max_tokens) as [_|Hbig].
    + apply IH.
    + destruct i as [|i]; simpl.
      * intros [= <-] Hy.
        destruct (merge_from_head max_tokens r c) as (y' & rest & Heq & Hg).
        rewrite Heq in Hy; simpl in Hy. injection Hy as <-.
        exists c; split; [exact Hg | exact Hbig].
      * apply IH.
Qed.

Lemma merge_adjacent (max_tokens : Z) (chunks : list SemanticChunk.t) :
  forall i x y,
    merge max_tokens chunks !! i = Some x ->
    merge max_tokens chunks !! S i = Some y ->
    exists c, grown_from tok c y
              /\ max_tokens < SemanticChunk.token_length (combine x c).
Proof.
  destruct chunks as [|c r]; simpl; intros i x y.
  - intros Hx; destruct i; discriminate Hx.
  - apply merge_from_adjacent.
Qed.

End MergePass.

(** *** Under a tokenizer that adds up over blank-line joins *)

Section AdditiveTokenizer.
Variable tok : string -> nat.
Hypothesis tok_blank_join :
  forall a b, tok (a ++ blank_line ++ b) = (tok a + tok b)%nat.
Hypothesis tok_leading_lf : forall s, tok (LF ++ s) = tok s.

#[local] Abbreviation cost := (headings_cost tok).

Lemma tok_join (parts : list string) :
  parts <> [] ->
  tok (Py.join blank_line parts) = sum_list (map tok parts).
Proof.
  induction parts as [|p [|p2 r] IH]; intros Hne; [congruence| |].
  - simpl. lia.
  - change (Py.join blank_line (p :: p2 :: r))
      with (p ++ blank_line ++ Py.join blank_line (p2 :: r)).
    rewrite tok_blank_join, IH by discriminate. reflexivity.
Qed.

Lemma sum_list_append (l1 l2 : list nat) :
  sum_list (l1 ++ l2) = (sum_list l1 + sum_list l2)%nat.
Proof. induction l1 as [|n r IH]; simpl; [reflexivity | rewrite IH; lia]. Qed.

Lemma heading_lines_lead_cost (start : nat) (l : list string) :
  sum_list (map tok (heading_lines LF start l))
  = sum_list (map tok (heading_lines "" start l)).
Proof.
  revert start; induction l as [|h r IH]; intros start; simpl;
    [reflexivity|].
  rewrite IH. f_equal. apply tok_leading_lf.
Qed.

Lemma heading_lines_app (lead : string) (start : nat) (l1 l2 : list string) :
  heading_lines lead start (l1 ++ l2)
  = (heading_lines lead start l1
     ++ heading_lines lead (start + List.length l1) l2)%list.
Proof.
  revert start; induction l1 as [|h r IH]; intros start; simpl.
  - rewrite Nat.add_0_r. reflexivity.
  - rewrite IH. replace (S start + List.length r)%nat
      with (start + S (List.length r))%nat by lia. reflexivity.
Qed.

Lemma cost_beyond (q : nat) (headers : list string) :
  (List.length headers <= q)%nat -> cost q headers = O.
Proof.
  intros H. unfold headings_cost. rewrite drop_ge by exact H. reflexivity.
Qed.

Lemma unique_heading_lines_cost (lead : string) (p : nat)
    (headers : list string) :
  lead = "" \/ lead = LF ->
  sum_list (map tok (unique_heading_lines lead p headers)) = cost p headers.
Proof.
  intros Hlead. unfold unique_heading_lines.
  destruct (Nat.ltb_spec p (List.length headers)) as [Hlt|Hge].
  - destruct Hlead as [->| ->]; [reflexivity|].
    apply heading_lines_lead_cost.
  - rewrite cost_beyond by exact Hge. reflexivity.
Qed.

(** The cost from [q] on splits at any later index [p] of the path. *)
Lemma cost_split (q p : nat) (headers : list string) :
  (q <= p)%nat -> (p <= List.length headers)%nat ->
  cost q headers = (cost q (take p headers) + cost p headers)%nat.
Proof.
  intros Hqp Hp. unfold headings_cost.
  rewrite <- (drop_take_drop headers q p Hqp) at 1.
  rewrite heading_lines_app, map_app, sum_list_append.
  rewrite length_drop, length_take.
  replace (q + 1 + (p `min` List.length headers - q))%nat
    with (p + 1)%nat by lia.
  reflexivity.
Qed.

Lemma cost_antitone (q p : nat) (headers : list string) :
  (q <= p)%nat -> (p <= List.length headers)%nat ->
  (cost p headers <= cost q headers)%nat.
Proof. intros Hqp Hp. rewrite (cost_split q p) by assumption. lia. Qed.

(** The token count of a combined content: both contents, and the inline
    headings of both header paths from the common prefix on. *)
Lemma tok_combined_content (a b : SemanticChunk.t) :
  let p := common_prefix_length (SemanticChunk.headers a)
             (SemanticChunk.headers b) in
  tok (combined_content a b)
  = (tok (SemanticChunk.content a) + tok (SemanticChunk.content b)
     + cost p (SemanticChunk.headers a)
     + cost p (SemanticChunk.headers b))%nat.
Proof.
  destruct a as [ca ta ha pa], b as [cb tb hb pb]; simpl.
  unfold combined_content, list_eqb; simpl.
  destruct (decide (ha = hb)) as [->|Hne].
  - rewrite bool_decide_eq_true_2 by reflexivity.
    rewrite tok_blank_join, common_prefix_length_refl.
    rewrite cost_beyond by lia. lia.
  - rewrite bool_decide_eq_false_2 by exact Hne.
    rewrite tok_join by (destruct (unique_heading_lines "" _ ha); discriminate).
    rewrite !map_app, !sum_list_append.
    rewrite !unique_heading_lines_cost by (auto). simpl.
    rewrite map_app, sum_list_append, unique_heading_lines_cost by auto.
    simpl. lia.
Qed.

Lemma common_prefix_length_prefix (hx hy hc : list string) :
  hy `prefix_of` hc ->
  (common_prefix_length hx hy <= common_prefix_length hx hc)%nat.
Proof.
  intros [k ->]. revert hy; induction hx as [|x rx IH]; intros [|y ry];
    simpl; try lia.
  destruct (String.eqb x y); [|lia]. apply le_n_S, IH.
Qed.

Lemma grown_dominates (c y : SemanticChunk.t) :
  grown_from tok c y -> dominates tok c y.
Proof.
  induction 1 as [|y d _ [Hpre Hcost]].
  - split; [reflexivity | intros; lia].
  - set (p := common_prefix_length (SemanticChunk.headers y)
                (SemanticChunk.headers d)).
    assert (Hp : (p <= List.length (SemanticChunk.headers y))%nat)
      by apply common_prefix_length_le_l.
    split; cbn [combine_chunks SemanticChunk.headers SemanticChunk.content].
    + etransitivity; [apply prefix_take | exact Hpre].
    + intros q Hq. fold p in Hq |- *. rewrite length_take in Hq.
      rewrite tok_combined_content. fold p.
      specialize (Hcost q ltac:(lia)).
      rewrite (cost_split q p (SemanticChunk.headers y)) in Hcost by lia.
      lia.
Qed.

(** A chunk that could not absorb [c] cannot absorb what [c] grew into. *)
Lemma combine_grown_monotone (x c y : SemanticChunk.t) :
  grown_from tok c y ->
  SemanticChunk.token_length (combine_chunks tok x c)
  <= SemanticChunk.token_length (combine_chunks tok x y).
Proof.
  intros Hgrown. destruct (grown_dominates c y Hgrown) as [Hpre Hcost].
  cbn [combine_chunks SemanticChunk.token_length].
  rewrite !tok_combined_content.
  set (p := common_prefix_length (SemanticChunk.headers x)
              (SemanticChunk.headers c)).
  set (p2 := common_prefix_length (SemanticChunk.headers x)
               (SemanticChunk.headers y)).
  assert (Hp2p : (p2 <= p)%nat)
    by (apply common_prefix_length_prefix; exact Hpre).
  assert (Hpx : (p <= List.length (SemanticChunk.headers x))%nat)
    by apply common_prefix_length_le_l.
  assert (Hpc : (p <= List.length (SemanticChunk.headers c))%nat)
    by apply common_prefix_length_le_r.
  assert (Hp2y : (p2 <= List.length (SemanticChunk.headers y))%nat)
    by apply common_prefix_length_le_r.
  specialize (Hcost p2 Hp2y).
  pose proof (cost_antitone p2 p (SemanticChunk.headers x) Hp2p Hpx).
  pose proof (cost_antitone p2 p (SemanticChunk.headers c) Hp2p Hpc).
  lia.
Qed.

End AdditiveTokenizer.

(** The word-count tokenizer adds up over blank-line joins and does not
    count a leading line feed. *)
Lemma word_count_from_app_space (a s : string) (c : ascii) (b : bool) :
  Py.isspace c = true ->
  word_count_from b (a ++ String c s)
  = (word_count_from b a + word_count_from false s)%nat.
Proof.
  intros Hc. revert b; induction a as [|x a IH]; intros b; simpl.
  - rewrite Hc. reflexivity.
  - destruct (Py.isspace x); [apply IH|].
    destruct b; rewrite IH; reflexivity.
Qed.

Lemma word_count_blank_join (a b : string) :
  word_count (a ++ blank_line ++ b) = (word_count a + word_count b)%nat.
Proof.
  unfold word_count, blank_line.
  change (String "010" (String "010" "") ++ b)
    with (String "010" (String "010" b)).
  rewrite word_count_from_app_space by reflexivity. reflexivity.
Qed.

Lemma word_count_leading_lf (s : string) :
  word_count (LF ++ s) = word_count s.
Proof. reflexivity. Qed.

(** C1 (amended). For every tree node, budget and header path, in the list
    the merge pass of [process_tree_to_chunks] returns: (1) every chunk is
    within the budget unless it is a sentence group of the Fallback Splitter
    for an oversized content of the subtree, carried with its recomputed
    token length; (2) for every two adjacent chunks, the first could not
    absorb the chunk the second one started from: their combination exceeds
    the budget; (3) when the tokenizer adds up over blank-line joins and does
    not count a leading line feed, as the word-count tokenizer does, the
    combination of any two adjacent chunks of the list exceeds the budget. *)
Theorem merge_pass_output (get_token_length : string -> nat)
    (SentenceSplitter_split_text : Z -> string -> list string)
    (root : TreeElement.t) (max_tokens : Z) (current_headers : list string) :
  let out :=
    process_tree_to_chunks get_token_length SentenceSplitter_split_text
      root max_tokens current_headers in
  (forall c, c ∈ out ->
     SemanticChunk.token_length c <= max_tokens
     \/ is_fallback_group get_token_length SentenceSplitter_split_text
          max_tokens root c)
  /\ (forall i x y, out !! i = Some x -> out !! S i = Some y ->
        exists c, grown_from get_token_length c y
                  /\ max_tokens
                     < SemanticChunk.token_length
                         (combine_chunks get_token_length x c))
  /\ ((forall a b, get_token_length (a ++ blank_line ++ b)
                   = (get_token_length a + get_token_length b)%nat) ->
      (forall s, get_token_length (LF ++ s) = get_token_length s) ->
      forall i x y, out !! i = Some x -> out !! S i = Some y ->
        max_tokens
        < SemanticChunk.token_length (combine_chunks get_token_length x y)).
Proof.
  intros out.
  assert (Hadj : forall i x y, out !! i = Some x -> out !! S i = Some y ->
            exists c, grown_from get_token_length c y
                      /\ max_tokens
                         < SemanticChunk.token_length
                             (combine_chunks get_token_length x c)).
  { unfold out. rewrite process_unfold. apply merge_adjacent. }
  split; [|split].
  - intros c Hc. pose proof (process_within_or_fallback get_token_length
      SentenceSplitter_split_text max_tokens root current_headers) as Hall.
    rewrite Forall_forall in Hall. apply Hall, Hc.
  - exact Hadj.
  - intros Hjoin Hlf i x y Hx Hy.
    destruct (Hadj i x y Hx Hy) as (c & Hgrown & Hbig).
    pose proof (combine_grown_monotone get_token_length Hjoin Hlf x c y
                  Hgrown).
    lia.
Qed.

(** The third part at the forced split of the two-subsection tree: with a
    budget of three word tokens the two chunks stay apart, and their
    combination exceeds the budget. *)
Lemma merge_pass_output_witness :
  3 < SemanticChunk.token_length
        (combine_chunks word_count
           (SemanticChunk.mk "word1 word2" 2 ["Title"; "A"] ∅)
           (SemanticChunk.mk "word3 word4 word5" 3 ["Title"; "B"] ∅)).
Proof.
  apply (proj2 (proj2 (merge_pass_output word_count one_group_splitter
                         two_section_tree 3 []))
           word_count_blank_join word_count_leading_lf 0%nat);
    reflexivity.
Defined.

(** C1 (as stated) fails: a leaf of twelve word tokens under a budget of
    three goes to the Fallback Splitter, whose one group of twelve tokens is
    returned as it is, over the budget. *)
Lemma merge_pass_output_over_budget :
  process_tree_to_chunks word_count one_group_splitter twelve_word_leaf 3 []
  = [SemanticChunk.mk twelve_words 12 [] ∅]
  /\ Exists (fun c => 3 < SemanticChunk.token_length c)
       (process_tree_to_chunks word_count one_group_splitter
          twelve_word_leaf 3 []).
Proof.
  split; [reflexivity|]. apply Exists_cons_hd. reflexivity.
Qed.

(** The hypotheses of C2 hold at the twelve-word leaf under a budget of a
    hundred. *)
Lemma own_content_within_budget_witness :
  own_chunks word_count one_group_splitter twelve_word_leaf 100 []
  = [SemanticChunk.mk twelve_words 12 [] ∅].
Proof.
  refine (proj1 (own_content_within_budget word_count one_group_splitter
                   twelve_word_leaf 100 [] _ _)).
  - reflexivity.
  - discriminate.
Defined.

(** ** The formatter *)

Lemma filter_truthy_all (headers : list string) :
  Forall (fun h => Py.truthy h = true) headers ->
  List.filter Py.truthy headers = headers.
Proof.
  induction 1 as [|h r Hh _ IH]; simpl; [reflexivity|].
  rewrite Hh, IH. reflexivity.
Qed.

(** C8. The formatter returns the content verbatim for an empty header
    list, and otherwise the headers that are not null (empty) joined by
    [" > "], a blank line, and the content verbatim.  The chunks
    [get_semantic_chunks] formats carry no null header, so each of them is
    rendered as its whole header list joined by [" > "], a blank line and
    its content, or as its content alone when it has no header. *)
Theorem final_chunk_rendering (get_token_length : string -> nat)
    (SentenceSplitter_split_text : Z -> string -> list string) :
  (forall headers content,
     format_chunk_with_headers headers content false
     = match headers with
       | [] => content
       | _ => Py.join " > " (List.filter Py.truthy headers)
                ++ blank_line ++ content
       end)
  /\ (forall root max_tokens,
        get_semantic_chunks get_token_length SentenceSplitter_split_text
          root max_tokens
        = map (fun chunk =>
                 rendered (SemanticChunk.headers chunk)
                   (SemanticChunk.content chunk))
              (process_tree_to_chunks get_token_length
                 SentenceSplitter_split_text root max_tokens [])).
Proof.
  split.
  - intros [|h r] content; reflexivity.
  - intros root max_tokens. unfold get_semantic_chunks.
    apply map_ext_Forall.
    eapply Forall_impl;
      [apply (process_headers_truthy get_token_length
                SentenceSplitter_split_text root max_tokens []),
             Forall_nil_2|].
    intros [c tl hs pg] Hhs; unfold headers_truthy in Hhs; simpl in *.
    destruct hs as [|h r]; [reflexivity|].
    unfold format_chunk_with_headers, get_full_header_path, rendered.
    rewrite filter_truthy_all by exact Hhs. reflexivity.
Qed.

(** ** parse_markdown_to_tree *)

Section Parser.
Variable get_token_length : string -> nat.
Variable get_nodes_from_node : string -> list section_node.

#[local] Abbreviation parse :=
  (parse_markdown_to_tree get_token_length get_nodes_from_node).
#[local] Abbreviation leaf_of := (new_child_of get_token_length).
#[local] Abbreviation add_all := (add_sections get_token_length).

Lemma split_scan_nonempty (sep : string) (s : string) :
  forall skip cur, Py.split_scan sep skip cur s <> [].
Proof.
  induction s as [|c s IH]; intros skip cur; cbn [Py.split_scan];
    [discriminate|].
  destruct skip; [|apply IH].
  destruct (Py.startswith sep (String c s)); [discriminate | apply IH].
Qed.

Lemma split_pages_nonempty (sep s : string) (pages : list string) :
  Py.split sep s = Some pages -> pages <> [].
Proof.
  destruct sep; simpl; [discriminate|].
  intros [= <-]. apply split_scan_nonempty.
Qed.

(** A section ends the call exactly when it has no text: the only error of
    the loop body is the [IndexError] of its first-line lookup. *)
Lemma leaf_of_cases (page_break : string) (pages : list string)
    (node : section_node) :
  pages <> [] ->
  (raw_text node = "" /\ leaf_of page_break pages node = Raise IndexError)
  \/ (raw_text node <> ""
      /\ exists first,
           Py.splitlines_first (raw_text node) = Some first
           /\ leaf_of page_break pages node
              = Ok (TreeElement.mk
                      (fst (header_and_content (raw_text node)))
                      (snd (header_and_content (raw_text node)))
                      (Z.of_nat (get_token_length
                         (snd (header_and_content (raw_text node)))))
                      []
                      (range_set (find_page first 0 pages)
                         (find_page first 0 pages
                          + Z.of_nat (Py.count page_break (raw_text node))
                          + 1)))).
Proof.
  intros Hpages. unfold new_child_of, page_index_of.
  destruct (header_and_content (raw_text node)) as [h c] eqn:Hhc.
  destruct pages as [|pg pgs]; [congruence|].
  destruct (raw_text node) as [|ch rest] eqn:Hraw; simpl.
  - left; split; reflexivity.
  - right; split; [discriminate|].
    eexists; split; reflexivity.
Qed.

Lemma add_sections_cases (page_break : string) (pages : list string) :
  pages <> [] ->
  forall nodes root,
    (Exists (fun s => raw_text s = "") nodes
     /\ add_all page_break pages root nodes = Raise IndexError)
    \/ (Forall (fun s => raw_text s <> "") nodes
        /\ exists t, add_all page_break pages root nodes = Ok t).
Proof.
  intros Hpages nodes; induction nodes as [|node rest IH]; intros root.
  - right; split; [apply Forall_nil_2 | exists root; reflexivity].
  - cbn [add_sections]. unfold add_section.
    destruct (leaf_of_cases page_break pages node Hpages)
      as [[Hraw ->]|[Hraw (first & _ & ->)]].
    + left; split; [apply Exists_cons_hd; exact Hraw | reflexivity].
    + destruct (IH (append_at (path_parts_of node)
        (TreeElement.mk (fst (header_and_content (raw_text node)))
           (snd (header_and_content (raw_text node)))
           (Z.of_nat (get_token_length
              (snd (header_and_content (raw_text node)))))
           []
           (range_set (find_page first 0 pages)
              (find_page first 0 pages
               + Z.of_nat (Py.count page_break (raw_text node)) + 1)))
        root)) as [[Hex Heq]|[Hall Hok]].
      * left; split; [apply Exists_cons_tl; exact Hex | exact Heq].
      * right; split; [|exact Hok].
        apply Forall_cons; split; assumption.
Qed.

Lemma no_empty_and_some_empty (nodes : list section_node) :
  Forall (fun s => raw_text s <> "") nodes ->
  Exists (fun s => raw_text s = "") nodes -> False.
Proof.
  intros Hall Hex. apply Exists_exists in Hex as (s & Hin & Hs).
  rewrite Forall_forall in Hall. exact (Hall s Hin Hs).
Qed.

(** The call returns a tree when the document is not blank, the delimiter
    not empty, and there are sections, all with a text. *)
Lemma parse_succeeds (markdown_text page_break : string) :
  Py.strip markdown_text <> "" -> page_break <> "" ->
  get_nodes_from_node markdown_text <> [] ->
  Forall (fun s => raw_text s <> "") (get_nodes_from_node markdown_text) ->
  exists t, parse markdown_text page_break = Ok t.
Proof.
  intros Hdoc Hpb Hsec Hall. unfold parse_markdown_to_tree.
  destruct (Py.strip markdown_text) as [|c0 s0]; [congruence|].
  destruct page_break as [|c1 s1]; [congruence|]. simpl.
  destruct (get_nodes_from_node markdown_text) as [|node rest];
    [congruence|].
  destruct (add_sections_cases (String c1 s1)
              (Py.split_scan (String c1 s1) 0 [] markdown_text)
              (split_scan_nonempty _ _ _ _) (node :: rest) empty_root)
    as [[Hex _]|[_ Hok]]; [|exact Hok].
  destruct (no_empty_and_some_empty _ Hall Hex).
Qed.

(** C5 (amended). The call raises [ValueError], the code's invalid-input
    error, exactly when the document is empty or white space only, or the
    page-break delimiter is the empty string, or the Segment Source yields no
    section.  It raises [IndexError] exactly when none of these holds and
    some section has an empty text.  In every other case, whatever the
    heading syntax of the document, it returns a tree. *)
Theorem parse_errors (markdown_text page_break : string) :
  let sections := get_nodes_from_node markdown_text in
  ((exists msg, parse markdown_text page_break = Raise (ValueError msg))
   <-> Py.strip markdown_text = "" \/ page_break = "" \/ sections = [])
  /\ (parse markdown_text page_break = Raise IndexError
      <-> Py.strip markdown_text <> "" /\ page_break <> ""
          /\ sections <> []
          /\ Exists (fun s => raw_text s = "") sections)
  /\ ((exists t, parse markdown_text page_break = Ok t)
      <-> Py.strip markdown_text <> "" /\ page_break <> ""
          /\ sections <> []
          /\ Forall (fun s => raw_text s <> "") sections).
Proof.
  intros sections. unfold parse_markdown_to_tree. fold sections.
  destruct (Py.strip markdown_text) as [|c0 s0] eqn:Hstrip; simpl.
  { split; [|split].
    - split; [intros _; left; reflexivity | intros _; eexists; reflexivity].
    - split; [discriminate | intros [H _]; congruence].
    - split; [intros [t Ht]; discriminate | intros [H _]; congruence]. }
  destruct page_break as [|c1 s1] eqn:Hpb; simpl.
  { split; [|split].
    - split; [intros _; right; left; reflexivity
             | intros _; eexists; reflexivity].
    - split; [discriminate | intros (_ & H & _); congruence].
    - split; [intros [t Ht]; discriminate | intros (_ & H & _); congruence]. }
  destruct sections as [|node rest] eqn:Hsec.
  { split; [|split].
    - split; [intros _; right; right; reflexivity
             | intros _; eexists; reflexivity].
    - split; [discriminate | intros (_ & _ & H & _); congruence].
    - split; [intros [t Ht]; discriminate
             | intros (_ & _ & H & _); congruence]. }
  destruct (add_sections_cases (String c1 s1)
              (Py.split_scan (String c1 s1) 0 [] markdown_text)
              (split_scan_nonempty _ _ _ _) (node :: rest) empty_root)
    as [[Hex Heq]|[Hall [t Heq]]]; rewrite Heq.
  - split; [|split].
    + split; [intros [msg Hm]; discriminate
             | intros [H|[H|H]]; discriminate].
    + split; [intros _; repeat split; try discriminate; exact Hex
             | reflexivity].
    + split; [intros [t Ht]; discriminate|].
      intros (_ & _ & _ & Hall).
      destruct (no_empty_and_some_empty _ Hall Hex).
  - split; [|split].
    + split; [intros [msg Hm]; discriminate
             | intros [H|[H|H]]; discriminate].
    + split; [discriminate|].
      intros (_ & _ & _ & Hex).
      destruct (no_empty_and_some_empty _ Hall Hex).
    + split; [intros _; repeat split; try discriminate; exact Hall
             | intros _; exists t; reflexivity].
Qed.

End Parser.

(** C5 (as stated) fails: with an empty page-break delimiter a document
    that is not blank, and for which the Segment Source yields a section,
    still ends in [ValueError], raised by the page split; and a section
    without text ends the call in [IndexError]. *)
Lemma parse_errors_other_inputs :
  parse_markdown_to_tree word_count one_section_source "abc" ""
  = Raise (ValueError "empty separator")
  /\ Py.strip "abc" = "abc"
  /\ one_section_source "abc" = [mk_section "abc" (Some "/")]
  /\ parse_markdown_to_tree word_count empty_section_source "abc"
       default_page_break
     = Raise IndexError.
Proof. repeat split. Qed.

(** ** The shape of the tree *)

Section TreeShape.
Variable get_token_length : string -> nat.
Variable get_nodes_from_node : string -> list section_node.
Variable SentenceSplitter_split_text : Z -> string -> list string.

#[local] Abbreviation parse :=
  (parse_markdown_to_tree get_token_length get_nodes_from_node).
#[local] Abbreviation leaf_of := (new_child_of get_token_length).
#[local] Abbreviation add_all := (add_sections get_token_length).
#[local] Abbreviation process :=
  (process_tree_to_chunks get_token_length SentenceSplitter_split_text).
#[local] Abbreviation merge := (merge_chunks get_token_length).
#[local] Abbreviation own :=
  (own_chunks get_token_length SentenceSplitter_split_text).

Lemma tree_labels_unfold (t : TreeElement.t) :
  tree_labels t
  = label_of t :: flat_map tree_labels (TreeElement.children t).
Proof. destruct t; reflexivity. Qed.

Lemma tree_labels_with_children (e : TreeElement.t)
    (cs : list TreeElement.t) :
  tree_labels (with_children e cs)
  = label_of e :: flat_map tree_labels cs.
Proof. destruct e; reflexivity. Qed.

Lemma descend_keeps (part : string) (f : TreeElement.t -> TreeElement.t)
    (l : node_label) :
  (forall c, l ∈ tree_labels c -> l ∈ tree_labels (f c)) ->
  forall cs, l ∈ flat_map tree_labels cs ->
             l ∈ flat_map tree_labels (descend part f cs).
Proof.
  intros Hf cs; induction cs as [|c r IH]; cbn [descend flat_map].
  - intros H; inversion H.
  - intros H; apply elem_of_app in H.
    destruct (header_is part c); cbn [flat_map]; apply elem_of_app.
    + destruct H as [H|H]; [left; apply Hf, H | right; exact H].
    + destruct H as [H|H]; [left; exact H | right; apply IH, H].
Qed.

Lemma descend_adds (part : string) (f : TreeElement.t -> TreeElement.t)
    (l : node_label) :
  (forall c, l ∈ tree_labels (f c)) ->
  forall cs, l ∈ flat_map tree_labels (descend part f cs).
Proof.
  intros Hf cs; induction cs as [|c r IH]; cbn [descend flat_map].
  - apply elem_of_app; left; apply Hf.
  - destruct (header_is part c); cbn [flat_map]; apply elem_of_app.
    + left; apply Hf.
    + right; exact IH.
Qed.

Lemma append_at_keeps (new_child : TreeElement.t) (l : node_label) :
  forall path_parts current_element,
    l ∈ tree_labels current_element ->
    l ∈ tree_labels (append_at path_parts new_child current_element).
Proof.
  induction path_parts as [|part rest IH]; intros cur;
    rewrite (tree_labels_unfold cur); cbn [append_at];
    rewrite tree_labels_with_children; intros H;
    apply elem_of_cons in H as [H|H];
    apply elem_of_cons; [left; exact H | right | left; exact H | right].
  - rewrite flat_map_app. apply elem_of_app; left; exact H.
  - apply descend_keeps; [exact IH | exact H].
Qed.

Lemma append_at_adds (new_child : TreeElement.t) :
  forall path_parts current_element,
    label_of new_child
    ∈ tree_labels (append_at path_parts new_child current_element).
Proof.
  induction path_parts as [|part rest IH]; intros cur; cbn [append_at];
    rewrite tree_labels_with_children; apply elem_of_cons; right.
  - rewrite flat_map_app. apply elem_of_app; right. cbn [flat_map].
    rewrite app_nil_r, (tree_labels_unfold new_child).
    apply elem_of_cons; left; reflexivity.
  - apply descend_adds. exact IH.
Qed.

(** Every section leaves a node with its leaf's label in the tree. *)
Lemma add_sections_labels (page_break : string) (pages : list string) :
  forall nodes root t,
    add_all page_break pages root nodes = Ok t ->
    (forall l, l ∈ tree_labels root -> l ∈ tree_labels t)
    /\ (forall s, s ∈ nodes ->
          exists leaf, leaf_of page_break pages s = Ok leaf
                       /\ label_of leaf ∈ tree_labels t).
Proof.
  induction nodes as [|node rest IH]; intros root t; cbn [add_sections].
  - intros [= <-]; split; [auto|]. intros s Hs; inversion Hs.
  - unfold add_section.
    destruct (leaf_of page_break pages node) as [leaf|e] eqn:Hleaf;
      [|discriminate].
    intros Hrest. destruct (IH _ _ Hrest) as [Hkeep Hnew]. split.
    + intros l Hl. apply Hkeep, append_at_keeps, Hl.
    + intros s Hs. apply elem_of_cons in Hs as [->|Hs]; [|apply Hnew, Hs].
      exists leaf; split; [exact Hleaf|]. apply Hkeep, append_at_adds.
Qed.

Lemma find_page_none (first : string) (pages : list string) :
  Forall (fun page => Py.contains first page = false) pages ->
  forall i, find_page first i pages = -1.
Proof.
  induction 1 as [|pg r Hpg _ IH]; intros i; simpl; [reflexivity|].
  rewrite Hpg. apply IH.
Qed.

(** C10. When the document is not blank, the delimiter not empty and every
    section has a text, the call succeeds; and a section whose first raw line
    is contained in no page of the document leaves a node in the returned tree
    whose pages are the contiguous range that starts at the sentinel [-1] and
    has one index more than the section's text has page-break delimiters: a
    set that contains [-1]. *)
Theorem unplaced_section_pages (markdown_text page_break : string)
    (pages : list string) (s : section_node) (first : string) :
  Py.strip markdown_text <> "" ->
  Py.split page_break markdown_text = Some pages ->
  Forall (fun s' => raw_text s' <> "") (get_nodes_from_node markdown_text) ->
  s ∈ get_nodes_from_node markdown_text ->
  Py.splitlines_first (raw_text s) = Some first ->
  Forall (fun page => Py.contains first page = false) pages ->
  exists t,
    parse markdown_text page_break = Ok t
    /\ let span :=
         range_set (-1) (Z.of_nat (Py.count page_break (raw_text s))) in
       (-1) ∈ span
       /\ (forall i, i ∈ span
                     <-> -1 <= i < Z.of_nat (Py.count page_break (raw_text s)))
       /\ exists header content,
            header_and_content (raw_text s) = (header, content)
            /\ (header, content, Z.of_nat (get_token_length content), span)
               ∈ tree_labels t.
Proof.
  intros Hdoc Hsplit Hall Hs Hfirst Hnone.
  assert (Hpb : page_break <> "")
    by (intros ->; discriminate Hsplit).
  assert (Hsec : get_nodes_from_node markdown_text <> [])
    by (intros E; rewrite E in Hs; inversion Hs).
  destruct (parse_succeeds get_token_length get_nodes_from_node
              markdown_text page_break Hdoc Hpb Hsec Hall) as [t Ht].
  exists t; split; [exact Ht|].
  assert (Hspan : forall i,
    i ∈ range_set (-1) (Z.of_nat (Py.count page_break (raw_text s)))
    <-> -1 <= i < Z.of_nat (Py.count page_break (raw_text s))).
  { intros i. unfold range_set. rewrite elem_of_list_to_set, elem_of_seqZ.
    lia. }
  cbv zeta. split; [apply Hspan; lia|]. split; [exact Hspan|].
  unfold parse_markdown_to_tree in Ht.
  destruct (negb _); [discriminate|]. rewrite Hsplit in Ht.
  destruct (get_nodes_from_node markdown_text) as [|n0 r0] eqn:Hnodes;
    [congruence|].
  destruct (add_sections_labels _ _ _ _ _ Ht) as [_ Hnew].
  destruct (Hnew s Hs) as (leaf & Hleaf & Hin).
  destruct (leaf_of_cases get_token_length page_break pages s
              (split_pages_nonempty _ _ _ Hsplit))
    as [[_ Hraise]|[_ (first' & Hfirst' & Hok)]];
    [rewrite Hraise in Hleaf; discriminate|].
  rewrite Hfirst in Hfirst'. injection Hfirst' as <-.
  rewrite Hok in Hleaf. injection Hleaf as <-.
  rewrite (find_page_none first pages Hnone) in Hin.
  destruct (header_and_content (raw_text s)) as [h c] eqn:Hhc.
  exists h, c; split; [reflexivity|].
  replace (-1 + Z.of_nat (Py.count page_break (raw_text s)) + 1)
    with (Z.of_nat (Py.count page_break (raw_text s))) in Hin by lia.
  exact Hin.
Qed.

End TreeShape.

(** The hypotheses of C10 hold for the document whose heading has a TAB
    after the hash: the section's first line [# Title] occurs in no page. *)
Lemma unplaced_section_pages_witness :
  exists t,
    parse_markdown_to_tree word_count respaced_source tab_heading_document
      default_page_break = Ok t
    /\ let span :=
         range_set (-1)
           (Z.of_nat (Py.count default_page_break
                        (raw_text (mk_section ("# Title" ++ LF ++ "body")
                                     (Some "/"))))) in
       (-1) ∈ span
       /\ (forall i, i ∈ span
             <-> -1 <= i
                 < Z.of_nat (Py.count default_page_break
                     (raw_text (mk_section ("# Title" ++ LF ++ "body")
                                  (Some "/")))))
       /\ exists header content,
            header_and_content
              (raw_text (mk_section ("# Title" ++ LF ++ "body") (Some "/")))
            = (header, content)
            /\ (header, content, Z.of_nat (word_count content), span)
               ∈ tree_labels t.
Proof.
  apply (unplaced_section_pages word_count respaced_source
           tab_heading_document default_page_break [tab_heading_document]
           (mk_section ("# Title" ++ LF ++ "body") (Some "/")) "# Title").
  - vm_compute. discriminate.
  - reflexivity.
  - apply Forall_cons; split; [vm_compute; discriminate | apply Forall_nil_2].
  - apply list_elem_of_here.
  - reflexivity.
  - apply Forall_cons; split; [reflexivity | apply Forall_nil_2].
Defined.

Section HeadingFree.
Variable get_token_length : string -> nat.
Variable get_nodes_from_node : string -> list section_node.
Variable SentenceSplitter_split_text : Z -> string -> list string.

#[local] Abbreviation parse :=
  (parse_markdown_to_tree get_token_length get_nodes_from_node).
#[local] Abbreviation leaf_of := (new_child_of get_token_length).
#[local] Abbreviation add_all := (add_sections get_token_length).
#[local] Abbreviation process :=
  (process_tree_to_chunks get_token_length SentenceSplitter_split_text).
#[local] Abbreviation merge := (merge_chunks get_token_length).
#[local] Abbreviation own :=
  (own_chunks get_token_length SentenceSplitter_split_text).

Lemma list_remove_subset (x y : string) (l : list string) :
  y ∈ Py.list_remove x l -> y ∈ l.
Proof.
  induction l as [|z r IH]; simpl; [auto|].
  destruct (String.eqb z x).
  - intros H; apply elem_of_cons; right; exact H.
  - intros H; apply elem_of_cons in H as [->|H]; apply elem_of_cons;
      [left; reflexivity | right; apply IH, H].
Qed.

Lemma section_lines_subset (node_text line : string) :
  line ∈ section_lines node_text -> line ∈ Py.split_lines_lf node_text.
Proof.
  unfold section_lines. destruct (Py.list_contains _ _); [|auto].
  apply list_remove_subset.
Qed.

(** A section without heading lines has no header, and its whole text is
    its content. *)
Lemma header_and_content_heading_free (node_text : string) :
  heading_free node_text ->
  header_and_content node_text = (None, node_text).
Proof.
  intros Hfree. unfold header_and_content.
  pose proof (section_lines_subset node_text) as Hsub.
  destruct (section_lines node_text) as [|l0 rest]; [reflexivity|].
  unfold heading_free in Hfree. rewrite Forall_forall in Hfree.
  rewrite (Hfree l0) by (apply Hsub, list_elem_of_here). reflexivity.
Qed.

Lemma with_children_twice (e : TreeElement.t) (a b : list TreeElement.t) :
  with_children (with_children e a) b = with_children e b.
Proof. reflexivity. Qed.

(** Root-level sections become the last children of the root, in order. *)
Lemma add_sections_root_level (page_break : string) (pages : list string) :
  forall nodes root t,
    Forall (fun s => path_parts_of s = []) nodes ->
    add_all page_break pages root nodes = Ok t ->
    exists leaves,
      Forall2 (fun s leaf => leaf_of page_break pages s = Ok leaf)
        nodes leaves
      /\ t = with_children root (TreeElement.children root ++ leaves).
Proof.
  induction nodes as [|node rest IH]; intros root t Hall;
    cbn [add_sections].
  - intros [= <-]. exists []; split; [constructor|].
    rewrite app_nil_r. destruct root; reflexivity.
  - apply Forall_cons in Hall as [Hnode Hrest]. unfold add_section.
    destruct (leaf_of page_break pages node) as [leaf|e] eqn:Hleaf;
      [|discriminate].
    rewrite Hnode; cbn [append_at]. intros Ht.
    destruct (IH _ _ Hrest Ht) as (leaves & Hleaves & ->).
    exists (leaf :: leaves); split; [constructor; assumption|].
    rewrite with_children_twice. cbn [with_children TreeElement.children].
    rewrite <- app_assoc. reflexivity.
Qed.

Lemma process_leaf (leaf : TreeElement.t) (max_tokens : Z)
    (current_headers : list string) :
  TreeElement.children leaf = [] ->
  process leaf max_tokens current_headers
  = merge max_tokens (own leaf max_tokens current_headers).
Proof.
  intros Hleaf. rewrite process_unfold. unfold chunks_before_merge.
  rewrite Hleaf. reflexivity.
Qed.

Lemma flat_map_process_leaves (max_tokens : Z)
    (leaves : list TreeElement.t) :
  Forall (fun leaf => TreeElement.header leaf = None
                      /\ TreeElement.children leaf = []) leaves ->
  flat_map (fun child =>
              process child max_tokens (child_headers_of [] child)) leaves
  = flat_map (fun leaf => merge max_tokens (own leaf max_tokens [])) leaves.
Proof.
  induction 1 as [|leaf r [Hh Hc] _ IH]; [reflexivity|].
  cbn [flat_map]. rewrite IH. f_equal.
  unfold child_headers_of. rewrite Hh. apply process_leaf, Hc.
Qed.

(** C6 (amended). For a document that parses, whose sections are all at
    root level and without heading lines: the root has no header and an empty
    content of its own; the text of each section is, verbatim, the content of
    a header-less leaf child of the root, in section order, with the
    tokenizer's count as token length; and the chunks of the tree are the
    chunks of these leaves' contents under the same budget and fallback
    logic, with an empty header path, merged. *)
Theorem heading_free_document (markdown_text page_break : string)
    (t : TreeElement.t) :
  parse markdown_text page_break = Ok t ->
  Forall (fun s => path_parts_of s = [] /\ heading_free (raw_text s))
    (get_nodes_from_node markdown_text) ->
  TreeElement.header t = None
  /\ TreeElement.content t = ""
  /\ TreeElement.token_length t = 0
  /\ Forall2
       (fun s leaf =>
          TreeElement.header leaf = None
          /\ TreeElement.content leaf = raw_text s
          /\ TreeElement.token_length leaf
             = Z.of_nat (get_token_length (raw_text s))
          /\ TreeElement.children leaf = [])
       (get_nodes_from_node markdown_text) (TreeElement.children t)
  /\ forall max_tokens,
       process t max_tokens []
       = merge max_tokens
           (flat_map (fun leaf => merge max_tokens (own leaf max_tokens []))
              (TreeElement.children t)).
Proof.
  intros Ht Hall. unfold parse_markdown_to_tree in Ht.
  destruct (negb _); [discriminate|].
  destruct (Py.split page_break markdown_text) as [pages|] eqn:Hsplit;
    [|discriminate].
  pose proof (split_pages_nonempty _ _ _ Hsplit) as Hpages.
  assert (Hadd : add_all page_break pages empty_root
                   (get_nodes_from_node markdown_text) = Ok t)
    by (destruct (get_nodes_from_node markdown_text); [discriminate|exact Ht]).
  clear Ht.
  destruct (add_sections_root_level page_break pages _ _ _
              (Forall_impl _ _ _ Hall (fun s H => proj1 H)) Hadd)
    as (leaves & Hleaves & ->).
  cbn [with_children empty_root TreeElement.header TreeElement.content
       TreeElement.token_length TreeElement.children app].
  assert (Hshape : Forall2
       (fun s leaf =>
          TreeElement.header leaf = None
          /\ TreeElement.content leaf = raw_text s
          /\ TreeElement.token_length leaf
             = Z.of_nat (get_token_length (raw_text s))
          /\ TreeElement.children leaf = [])
       (get_nodes_from_node markdown_text) leaves).
  { clear Hadd. induction Hleaves as [|s leaf ss ls Hleaf _ IH];
      [constructor|].
    apply Forall_cons in Hall as [[_ Hfree] Hrest].
    constructor; [|apply IH, Hrest].
    destruct (leaf_of_cases get_token_length page_break pages s Hpages)
      as [[_ Hraise]|[_ (first & _ & Hok)]];
      [rewrite Hraise in Hleaf; discriminate|].
    rewrite Hok in Hleaf. injection Hleaf as <-.
    rewrite (header_and_content_heading_free _ Hfree).
    repeat split. }
  repeat split; [exact Hshape|].
  intros max_tokens. rewrite process_unfold.
  unfold chunks_before_merge, own_chunks.
  cbn [TreeElement.children TreeElement.content Py.strip Py.lstrip
       Py.rstrip Py.truthy].
  rewrite app_nil_r. f_equal. apply flat_map_process_leaves.
  clear Hadd Hleaves Hall.
  induction Hshape as [|s leaf ss ls (Hh & _ & _ & Hc) _ IH];
    [apply Forall_nil_2|].
  apply Forall_cons; split; [split; assumption | exact IH].
Qed.

End HeadingFree.

(** The hypotheses of the amended C6 hold for the document
    [Hello world.], which the Segment Source hands over as one root-level
    section. *)
Lemma heading_free_document_witness :
  TreeElement.header hello_tree = None
  /\ TreeElement.content hello_tree = ""
  /\ TreeElement.token_length hello_tree = 0
  /\ Forall2
       (fun s leaf =>
          TreeElement.header leaf = None
          /\ TreeElement.content leaf = raw_text s
          /\ TreeElement.token_length leaf
             = Z.of_nat (word_count (raw_text s))
          /\ TreeElement.children leaf = [])
       (one_section_source "Hello world.") (TreeElement.children hello_tree)
  /\ forall max_tokens,
       process_tree_to_chunks word_count one_group_splitter hello_tree
         max_tokens []
       = merge_chunks word_count max_tokens
           (flat_map
              (fun leaf =>
                 merge_chunks word_count max_tokens
                   (own_chunks word_count one_group_splitter leaf
                      max_tokens []))
              (TreeElement.children hello_tree)).
Proof.
  apply (heading_free_document word_count one_section_source
           one_group_splitter "Hello world." default_page_break hello_tree).
  - vm_compute. reflexivity.
  - apply Forall_cons; split; [|apply Forall_nil_2].
    split; [reflexivity|].
    apply Forall_cons; split; [reflexivity | apply Forall_nil_2].
Defined.

(** C6 (as stated) fails: the document [Hello world.] parses to a tree
    whose root has an empty content; the text is the content of the root's
    only child. *)
Lemma heading_free_document_root_content :
  parse_markdown_to_tree word_count one_section_source "Hello world."
    default_page_break = Ok hello_tree
  /\ TreeElement.content hello_tree = ""
  /\ String.eqb (TreeElement.content hello_tree) "Hello world." = false
  /\ map TreeElement.content (TreeElement.children hello_tree)
     = ["Hello world."].
Proof. split; [vm_compute; reflexivity|]. repeat split. Qed.

(** C7, the code at a section that spans three pages: only the first
    [---] line is removed, so the node's content keeps the second one; a
    section without heading keeps every [---] line, its content being the raw
    text; and with another delimiter, the line of that delimiter stays. *)
Theorem artifact_line_survives :
  header_and_content three_page_section
  = (Some "T", "a" ++ LF ++ "b" ++ LF ++ "---" ++ LF ++ "c")
  /\ Py.list_contains "---"
       (Py.split_lines_lf (snd (header_and_content three_page_section)))
     = true
  /\ header_and_content ("a" ++ LF ++ "---" ++ LF ++ "b")
     = (None, "a" ++ LF ++ "---" ++ LF ++ "b")
  /\ header_and_content ("# T" ++ LF ++ "a" ++ LF ++ "***" ++ LF ++ "b")
     = (Some "T", "a" ++ LF ++ "***" ++ LF ++ "b")
  /\ (exists t,
        parse_markdown_to_tree word_count one_section_source
          three_page_section default_page_break = Ok t
        /\ map TreeElement.content (TreeElement.children t)
           = ["a" ++ LF ++ "b" ++ LF ++ "---" ++ LF ++ "c"]).
Proof.
  repeat split. eexists; split; [vm_compute; reflexivity | reflexivity].
Qed.

(** ** The model on the documents of the testable properties *)

(** The trivial case: one titled section within the budget gives one chunk,
    rendered as the title, a blank line and the text. *)
Example trivial_case_rendering :
  match parse_markdown_to_tree word_count one_section_source
          ("# Title" ++ blank_line ++ "Hello world.") default_page_break with
  | Ok root => get_semantic_chunks word_count one_group_splitter root 100
  | Raise _ => []
  end
  = ["Title" ++ blank_line ++ "Hello world."].
Proof. vm_compute. reflexivity. Qed.

(** Two subsections under a budget of ten merge into one chunk that keeps
    the common header and carries both level-2 headings inline. *)
Example two_section_merge :
  map (fun c => (SemanticChunk.headers c, SemanticChunk.content c,
                 SemanticChunk.token_length c))
    (process_tree_to_chunks word_count one_group_splitter
       two_section_tree 10 [])
  = [(["Title"],
      "## A" ++ blank_line ++ "word1 word2" ++ blank_line ++ LF
        ++ "## B" ++ blank_line ++ "word3 word4 word5",
      9)].
Proof. vm_compute. reflexivity. Qed.

(** Under a budget of three nothing merges. *)
Example forced_split :
  map (fun c => (SemanticChunk.headers c, SemanticChunk.content c))
    (process_tree_to_chunks word_count one_group_splitter
       two_section_tree 3 [])
  = [(["Title"; "A"], "word1 word2");
     (["Title"; "B"], "word3 word4 word5")].
Proof. vm_compute. reflexivity. Qed.

(** The subsection's chunk comes before the node's own text. *)
Example own_text_after_subsection :
  map SemanticChunk.content
    (chunks_before_merge word_count one_group_splitter
       intro_then_subsection 1 ["T"])
  = ["body"; "intro"].
Proof. vm_compute. reflexivity. Qed.

(** * Further properties of the chunker and the tree builder *)

(** ** Definitions *)

(** [a] occurs in [s] as a contiguous piece. *)
Definition occurs_in (a s : string) : Prop :=
  exists before after, s = before ++ a ++ after.

(** [next((child for child in children if child.header == part), None)] *)
Fixpoint find_child (part : string) (cs : list TreeElement.t)
    : option TreeElement.t :=
  match cs with
  | [] => None
  | child :: rest =>
      if header_is part child then Some child else find_child part rest
  end.

(** The descent of the path walk, read-only: at each part, the first child
    whose header equals it. *)
Fixpoint walk (path_parts : list string) (current_element : TreeElement.t)
    : option TreeElement.t :=
  match path_parts with
  | [] => Some current_element
  | part :: rest =>
      match find_child part (TreeElement.children current_element) with
      | Some child => walk rest child
      | None => None
      end
  end.

(** A text without line feed. *)
Definition no_line_feed (s : string) : Prop :=
  Forall (fun c => c <> "010"%char) (list_ascii_of_string s).

(** A text without slash. *)
Definition no_slash (s : string) : Prop :=
  Forall (fun c => c <> "/"%char) (list_ascii_of_string s).


(** The nodes of a tree whose own content is emitted: non-blank contents. *)
Definition emits (l : node_label) : Prop :=
  Py.truthy (Py.strip (snd (fst (fst l)))) = true.

(** ** The merge pass loses nothing *)

Lemma string_app_assoc (a b c : string) : (a ++ b) ++ c = a ++ b ++ c.
Proof.
  induction a as [|x a IH]; [reflexivity|].
  change (String x ((a ++ b) ++ c) = String x (a ++ b ++ c)).
  f_equal; exact IH.
Qed.

Lemma string_app_nil_r (a : string) : a ++ "" = a.
Proof.
  induction a as [|x a IH]; [reflexivity|].
  change (String x (a ++ "") = String x a). f_equal; exact IH.
Qed.

Lemma occurs_in_refl (a : string) : occurs_in a a.
Proof. exists "", "". simpl. rewrite string_app_nil_r. reflexivity. Qed.

Lemma occurs_in_trans (a b c : string) :
  occurs_in a b -> occurs_in b c -> occurs_in a c.
Proof.
  intros (p1 & q1 & ->) (p2 & q2 & ->).
  exists (p2 ++ p1), (q1 ++ q2). rewrite !string_app_assoc. reflexivity.
Qed.

Lemma occurs_in_app_l (a s x : string) :
  occurs_in a s -> occurs_in a (s ++ x).
Proof.
  intros (p & q & ->). exists p, (q ++ x).
  rewrite !string_app_assoc. reflexivity.
Qed.

Lemma occurs_in_app_r (a s x : string) :
  occurs_in a s -> occurs_in a (x ++ s).
Proof.
  intros (p & q & ->). exists (x ++ p), q.
  rewrite !string_app_assoc. reflexivity.
Qed.

Lemma occurs_in_join (sep x : string) (parts : list string) :
  x ∈ parts -> occurs_in x (Py.join sep parts).
Proof.
  induction parts as [|p [|p2 r] IH]; intros Hin.
  - inversion Hin.
  - apply elem_of_cons in Hin as [->|Hin]; [apply occurs_in_refl|].
    inversion Hin.
  - change (Py.join sep (p :: p2 :: r))
      with (p ++ sep ++ Py.join sep (p2 :: r)).
    apply elem_of_cons in Hin as [->|Hin].
    + apply occurs_in_app_l, occurs_in_refl.
    + apply occurs_in_app_r, occurs_in_app_r, IH, Hin.
Qed.

Section MergeConservation.
Variable get_token_length : string -> nat.

#[local] Abbreviation combine := (combine_chunks get_token_length).
#[local] Abbreviation merge := (merge_chunks get_token_length).
#[local] Abbreviation merge_loop := (merge_from get_token_length).

Lemma combine_keeps_left (a b : SemanticChunk.t) :
  occurs_in (SemanticChunk.content a) (SemanticChunk.content (combine a b)).
Proof.
  cbn [combine_chunks SemanticChunk.content]. unfold combined_content.
  destruct (list_eqb _ _).
  - apply occurs_in_app_l, occurs_in_refl.
  - apply occurs_in_join. rewrite elem_of_app; right.
    apply list_elem_of_here.
Qed.

Lemma combine_keeps_right (a b : SemanticChunk.t) :
  occurs_in (SemanticChunk.content b) (SemanticChunk.content (combine a b)).
Proof.
  cbn [combine_chunks SemanticChunk.content]. unfold combined_content.
  destruct (list_eqb _ _).
  - apply occurs_in_app_r, occurs_in_app_r, occurs_in_refl.
  - apply occurs_in_join. rewrite !elem_of_app; right; right; right.
    apply list_elem_of_here.
Qed.

Lemma merge_from_keeps (max_tokens : Z) (x : string) :
  forall chunks current_chunk,
    occurs_in x (SemanticChunk.content current_chunk)
    \/ (exists c, c ∈ chunks /\ occurs_in x (SemanticChunk.content c)) ->
    exists o, o ∈ merge_loop max_tokens current_chunk chunks
              /\ occurs_in x (SemanticChunk.content o).
Proof.
  induction chunks as [|c r IH]; intros acc H; cbn [merge_from].
  - destruct H as [H|(c & Hc & _)]; [|inversion Hc].
    exists acc; split; [apply list_elem_of_here | exact H].
  - destruct (_ <=? _).
    + apply IH. destruct H as [H|(c' & Hc' & Hx)].
      * left. eapply occurs_in_trans; [exact H | apply combine_keeps_left].
      * apply elem_of_cons in Hc' as [->|Hc'].
        -- left. eapply occurs_in_trans; [exact Hx|].
           apply combine_keeps_right.
        -- right; exists c'; split; assumption.
    + destruct H as [H|(c' & Hc' & Hx)].
      * exists acc; split; [apply list_elem_of_here | exact H].
      * destruct (IH c) as (o & Ho & Hxo).
        { apply elem_of_cons in Hc' as [->|Hc'];
            [left; exact Hx | right; exists c'; split; assumption]. }
        exists o; split; [apply list_elem_of_further, Ho | exact Hxo].
Qed.

Lemma merge_from_length (max_tokens : Z) :
  forall chunks current_chunk,
    (1 <= List.length (merge_loop max_tokens current_chunk chunks)
     <= S (List.length chunks))%nat.
Proof.
  induction chunks as [|c r IH]; intros acc; cbn [merge_from].
  - simpl; lia.
  - destruct (_ <=? _).
    + specialize (IH (combine acc c)). simpl; lia.
    + specialize (IH c). simpl; lia.
Qed.

(** X1. The merge pass drops no text and adds no chunk: the content of
    every chunk of the working list occurs, as a contiguous piece, in the
    content of some returned chunk; the returned list is no longer than
    the working list, and it is empty only for an empty working list. *)
Theorem merge_keeps_every_content (max_tokens : Z)
    (chunks : list SemanticChunk.t) :
  (forall c, c ∈ chunks ->
     exists o, o ∈ merge max_tokens chunks
               /\ occurs_in (SemanticChunk.content c)
                    (SemanticChunk.content o))
  /\ (List.length (merge max_tokens chunks) <= List.length chunks)%nat
  /\ (merge max_tokens chunks = [] <-> chunks = []).
Proof.
  destruct chunks as [|c0 r]; cbn [merge_chunks].
  - split; [intros c Hc; inversion Hc|]. split; [simpl; lia | tauto].
  - pose proof (merge_from_length max_tokens r c0) as Hlen.
    split; [|split].
    + intros c Hc. apply merge_from_keeps.
      apply elem_of_cons in Hc as [->|Hc];
        [left; apply occurs_in_refl|].
      right; exists c; split; [exact Hc | apply occurs_in_refl].
    + simpl; lia.
    + split; [|discriminate].
      intros E; rewrite E in Hlen; simpl in Hlen; lia.
Qed.

Lemma merge_from_pages (max_tokens : Z) :
  forall chunks current_chunk,
    ⋃ (map SemanticChunk.pages (merge_loop max_tokens current_chunk chunks))
    = SemanticChunk.pages current_chunk
      ∪ ⋃ (map SemanticChunk.pages chunks).
Proof.
  induction chunks as [|c r IH]; intros acc; cbn [merge_from].
  - simpl. reflexivity.
  - destruct (_ <=? _).
    + rewrite IH, map_cons, union_list_cons.
      cbn [combine_chunks SemanticChunk.pages].
      rewrite <- (assoc_L (∪)). reflexivity.
    + rewrite !map_cons, !union_list_cons, IH. reflexivity.
Qed.

(** X2. The merge pass keeps every page index and invents none: the union
    of the page sets of the returned chunks is the union of the page sets of
    the working list. *)
Theorem merge_keeps_every_page (max_tokens : Z)
    (chunks : list SemanticChunk.t) :
  ⋃ (map SemanticChunk.pages (merge max_tokens chunks))
  = ⋃ (map SemanticChunk.pages chunks).
Proof.
  destruct chunks as [|c0 r]; cbn [merge_chunks]; [reflexivity|].
  rewrite merge_from_pages. reflexivity.
Qed.

(** X3. Under a negative budget the merge pass combines nothing: it
    returns the working list as it is. *)
Theorem merge_negative_budget (max_tokens : Z)
    (chunks : list SemanticChunk.t) :
  max_tokens < 0 -> merge max_tokens chunks = chunks.
Proof.
  intros Hneg. destruct chunks as [|c0 r]; cbn [merge_chunks];
    [reflexivity|].
  revert c0; induction r as [|c r IH]; intros acc; cbn [merge_from];
    [reflexivity|].
  destruct (Z.leb_spec
    (SemanticChunk.token_length (combine acc c)) max_tokens) as [Hfit|_].
  - cbn [combine_chunks SemanticChunk.token_length] in Hfit. lia.
  - rewrite IH. reflexivity.
Qed.

End MergeConservation.

(** The hypothesis of X3 holds at a budget of minus one. *)
Lemma merge_negative_budget_witness :
  merge_chunks word_count (-1) [chunk_A; chunk_A] = [chunk_A; chunk_A].
Proof.
  apply (merge_negative_budget word_count (-1) [chunk_A; chunk_A]).
  reflexivity.
Defined.

(** ** Header paths and token lengths of the chunks *)

Lemma common_prefix_is_prefix (l h1 h2 : list string) :
  l `prefix_of` h1 -> l `prefix_of` h2 ->
  l `prefix_of` take (common_prefix_length h1 h2) h1.
Proof.
  intros H1 H2. pose proof (common_prefix_length_max l _ _ H1 H2) as Hlen.
  destruct H1 as [k ->]. rewrite take_app_ge by exact Hlen.
  apply prefix_app_r. reflexivity.
Qed.

Lemma common_prefix_length_sym (h1 h2 : list string) :
  common_prefix_length h1 h2 = common_prefix_length h2 h1.
Proof.
  revert h2; induction h1 as [|a r1 IH]; intros [|b r2]; simpl;
    try reflexivity.
  rewrite (String.eqb_sym a b). destruct (String.eqb b a);
    [rewrite IH|]; reflexivity.
Qed.

Lemma common_prefix_assoc (h1 h2 h3 : list string) :
  take (common_prefix_length (take (common_prefix_length h1 h2) h1) h3)
    (take (common_prefix_length h1 h2) h1)
  = take (common_prefix_length h1
            (take (common_prefix_length h2 h3) h2)) h1.
Proof.
  revert h2 h3; induction h1 as [|a r1 IH]; intros [|b r2] [|c r3];
    simpl; try reflexivity.
  - destruct (String.eqb a b); reflexivity.
  - destruct (String.eqb_spec a b) as [->|Hab]; simpl.
    + destruct (String.eqb_spec b c) as [->|Hbc]; simpl.
      * rewrite String.eqb_refl; simpl. f_equal. apply IH.
      * reflexivity.
    + destruct (String.eqb_spec b c) as [->|Hbc]; simpl.
      * destruct (String.eqb_spec a c); [congruence | reflexivity].
      * reflexivity.
Qed.

Section ChunkInvariants.
Variable get_token_length : string -> nat.
Variable SentenceSplitter_split_text : Z -> string -> list string.

#[local] Abbreviation tok := get_token_length.
#[local] Abbreviation process :=
  (process_tree_to_chunks get_token_length SentenceSplitter_split_text).
#[local] Abbreviation before_merge :=
  (chunks_before_merge get_token_length SentenceSplitter_split_text).
#[local] Abbreviation own :=
  (own_chunks get_token_length SentenceSplitter_split_text).
#[local] Abbreviation combine := (combine_chunks get_token_length).
#[local] Abbreviation merge := (merge_chunks get_token_length).

(** X4. The header list and the page set of a combination do not depend on
    the order or the grouping of the chunks combined. *)
Theorem combine_headers_pages_algebra (a b c : SemanticChunk.t) :
  SemanticChunk.headers (combine a b) = SemanticChunk.headers (combine b a)
  /\ SemanticChunk.pages (combine a b) = SemanticChunk.pages (combine b a)
  /\ SemanticChunk.headers (combine (combine a b) c)
     = SemanticChunk.headers (combine a (combine b c))
  /\ SemanticChunk.pages (combine (combine a b) c)
     = SemanticChunk.pages (combine a (combine b c)).
Proof.
  cbn [combine_chunks SemanticChunk.headers SemanticChunk.pages].
  split; [|split; [|split]].
  - rewrite common_prefix_length_take, common_prefix_length_sym.
    reflexivity.
  - apply (comm_L (∪)).
  - apply common_prefix_assoc.
  - rewrite (assoc_L (∪)). reflexivity.
Qed.

Lemma child_headers_extend (current_headers : list string)
    (child : TreeElement.t) :
  current_headers `prefix_of` child_headers_of current_headers child.
Proof.
  unfold child_headers_of.
  destruct (TreeElement.header child) as [h|]; [|reflexivity].
  destruct (Py.truthy h); [apply prefix_app_r|]; reflexivity.
Qed.

(** X5. Every chunk [process_tree_to_chunks] returns carries a header list
    that starts with the header path the call was given: merging never cuts
    the breadcrumb above the node being processed. *)
Theorem chunk_headers_extend_current (root : TreeElement.t)
    (max_tokens : Z) (current_headers : list string) :
  Forall (fun c => current_headers `prefix_of` SemanticChunk.headers c)
    (process root max_tokens current_headers).
Proof.
  revert current_headers.
  induction root as [h c tl cs pg IH] using tree_ind.
  intros current_headers. rewrite process_unfold.
  apply merge_Forall.
  - intros a b Ha Hb. cbn [combine_chunks SemanticChunk.headers].
    apply common_prefix_is_prefix; assumption.
  - unfold chunks_before_merge; cbn [TreeElement.children].
    apply Forall_app; split.
    + induction IH as [|child r Hchild _ IHr]; simpl; [apply Forall_nil_2|].
      apply Forall_app; split; [|exact IHr].
      eapply Forall_impl; [apply Hchild|].
      intros x Hx; simpl in Hx.
      etransitivity; [apply child_headers_extend | exact Hx].
    + eapply Forall_impl; [apply own_headers|].
      intros x Hx; simpl in Hx; rewrite Hx. reflexivity.
Qed.

Lemma tree_labels_node (h : option string) (c : string) (tl : Z)
    (cs : list TreeElement.t) (pg : gset Z) :
  tree_labels (TreeElement.mk h c tl cs pg)
  = (h, c, tl, pg) :: flat_map tree_labels cs.
Proof. reflexivity. Qed.

(** Token lengths of the chunks of a tree whose emitting nodes carry the
    tokenizer's count. *)
Lemma process_token_length_count (root : TreeElement.t) (max_tokens : Z)
    (current_headers : list string) :
  (forall h c tl pg, (h, c, tl, pg) ∈ tree_labels root ->
     Py.truthy (Py.strip c) = true -> tl = Z.of_nat (tok c)) ->
  Forall (fun k => SemanticChunk.token_length k
                   = Z.of_nat (tok (SemanticChunk.content k)))
    (process root max_tokens current_headers).
Proof.
  revert current_headers.
  induction root as [h c tl cs pg IH] using tree_ind.
  intros current_headers Hcount. rewrite process_unfold.
  apply merge_Forall; [intros a b _ _; reflexivity|].
  unfold chunks_before_merge; cbn [TreeElement.children].
  rewrite tree_labels_node in Hcount.
  pose proof (Hcount h c tl pg (list_elem_of_here _ _)) as Hroot.
  assert (Hch : forall h' c' tl' pg',
            (h', c', tl', pg') ∈ flat_map tree_labels cs ->
            Py.truthy (Py.strip c') = true -> tl' = Z.of_nat (tok c'))
    by (intros h' c' tl' pg' Hin;
        apply (Hcount h' c' tl' pg'), list_elem_of_further, Hin).
  clear Hcount. apply Forall_app; split.
  - revert Hch.
    induction IH as [|child r Hchild _ IHr]; intros Hch; simpl;
      [apply Forall_nil_2|].
    apply Forall_app; split.
    + apply Hchild. intros h' c' tl' pg' Hin.
      apply (Hch h' c' tl' pg'). simpl.
      apply elem_of_app; left; exact Hin.
    + apply IHr. intros h' c' tl' pg' Hin.
      apply (Hch h' c' tl' pg'). simpl.
      apply elem_of_app; right; exact Hin.
  - unfold own_chunks; cbn [TreeElement.content TreeElement.token_length
      TreeElement.pages].
    destruct (Py.truthy (Py.strip c)) eqn:Hc; [|apply Forall_nil_2].
    destruct (max_tokens <? tl).
    + apply Forall_forall; intros k Hk.
      apply list_elem_of_fmap in Hk as [g [-> _]]. reflexivity.
    + apply Forall_cons; split; [|apply Forall_nil_2]. simpl.
      apply Hroot. reflexivity.
Qed.

(** X6. When every node with a non-blank content carries the tokenizer's
    count of that content as its token length, every chunk
    [process_tree_to_chunks] returns, merged or not, carries the tokenizer's
    count of its own content. *)
Theorem chunk_token_length_is_count (root : TreeElement.t) (max_tokens : Z)
    (current_headers : list string) :
  (forall h c tl pg, (h, c, tl, pg) ∈ tree_labels root ->
     Py.truthy (Py.strip c) = true -> tl = Z.of_nat (tok c)) ->
  Forall (fun k => SemanticChunk.token_length k
                   = Z.of_nat (tok (SemanticChunk.content k)))
    (process root max_tokens current_headers).
Proof. exact (process_token_length_count root max_tokens current_headers). Qed.

Lemma merge_keeps (max_tokens : Z) (x : string)
    (chunks : list SemanticChunk.t) :
  (exists c, c ∈ chunks /\ occurs_in x (SemanticChunk.content c)) ->
  exists o, o ∈ merge max_tokens chunks
            /\ occurs_in x (SemanticChunk.content o).
Proof.
  destruct chunks as [|c0 r]; intros (c & Hc & Hx); [inversion Hc|].
  cbn [merge_chunks]. apply merge_from_keeps.
  apply elem_of_cons in Hc as [->|Hc]; [left; exact Hx|].
  right; exists c; split; assumption.
Qed.

(** Contents within the budget reach the output. *)
Lemma process_keeps_content (root : TreeElement.t)
    (max_tokens : Z) (current_headers : list string)
    (h : option string) (c : string) (tl : Z) (pg : gset Z) :
  (h, c, tl, pg) ∈ tree_labels root ->
  Py.truthy (Py.strip c) = true ->
  tl <= max_tokens ->
  exists k, k ∈ process root max_tokens current_headers
            /\ occurs_in c (SemanticChunk.content k).
Proof.
  intros Hin Hc Hfit. revert current_headers Hin.
  induction root as [h0 c0 tl0 cs pg0 IH] using tree_ind.
  intros current_headers Hin. rewrite process_unfold.
  apply merge_keeps. unfold chunks_before_merge.
  cbn [TreeElement.children]. rewrite tree_labels_node in Hin.
  apply elem_of_cons in Hin as [Heq|Hin].
  - injection Heq as <- <- <- <-.
    exists (SemanticChunk.mk c tl current_headers pg); split;
      [|apply occurs_in_refl].
    apply elem_of_app; right. unfold own_chunks; simpl. rewrite Hc.
    destruct (Z.ltb_spec max_tokens tl); [lia | apply list_elem_of_here].
  - assert (Hk : exists k,
      k ∈ flat_map (fun child =>
             process child max_tokens
               (child_headers_of current_headers child)) cs
      /\ occurs_in c (SemanticChunk.content k)).
    { induction IH as [|child r Hchild _ IHr]; simpl in Hin;
        [inversion Hin|].
      apply elem_of_app in Hin as [Hin|Hin].
      - destruct (Hchild (child_headers_of current_headers child) Hin)
          as (k & Hk & Hx).
        exists k; split; [|exact Hx]. simpl.
        apply elem_of_app; left; exact Hk.
      - destruct (IHr Hin) as (k & Hk & Hx).
        exists k; split; [|exact Hx]. simpl.
        apply elem_of_app; right; exact Hk. }
    destruct Hk as (k & Hk & Hx).
    exists k; split; [apply elem_of_app; left; exact Hk | exact Hx].
Qed.

(** X7. No content within the budget is lost: for every node of the tree
    whose own content is non-blank and whose token length is within the
    budget, that content occurs verbatim, as a contiguous piece, in the
    content of some chunk [process_tree_to_chunks] returns. *)
Theorem content_within_budget_is_kept (root : TreeElement.t)
    (max_tokens : Z) (current_headers : list string)
    (h : option string) (c : string) (tl : Z) (pg : gset Z) :
  (h, c, tl, pg) ∈ tree_labels root ->
  Py.truthy (Py.strip c) = true ->
  tl <= max_tokens ->
  exists k, k ∈ process root max_tokens current_headers
            /\ occurs_in c (SemanticChunk.content k).
Proof.
  exact (process_keeps_content root max_tokens current_headers h c tl pg).
Qed.

End ChunkInvariants.

(** The hypothesis of X6 holds at the two-subsection tree. *)
Lemma chunk_token_length_is_count_witness :
  Forall (fun k => SemanticChunk.token_length k
                   = Z.of_nat (word_count (SemanticChunk.content k)))
    (process_tree_to_chunks word_count one_group_splitter
       two_section_tree 10 []).
Proof.
  apply (chunk_token_length_is_count word_count one_group_splitter
           two_section_tree 10 []).
  intros h c tl pg Hin Hc. simpl in Hin.
  repeat (apply elem_of_cons in Hin as [Hin|Hin];
          [injection Hin as -> -> -> ->;
           first [reflexivity | vm_compute in Hc; discriminate Hc]|]).
  inversion Hin.
Defined.

(** The hypotheses of X7 hold for subsection [B] of the two-subsection tree
    under a budget of three. *)
Lemma content_within_budget_is_kept_witness :
  exists k,
    k ∈ process_tree_to_chunks word_count one_group_splitter
          two_section_tree 3 []
    /\ occurs_in "word3 word4 word5" (SemanticChunk.content k).
Proof.
  apply (content_within_budget_is_kept word_count one_group_splitter
           two_section_tree 3 [] (Some "B") "word3 word4 word5" 3 ∅).
  - simpl. do 3 apply list_elem_of_further. apply list_elem_of_here.
  - reflexivity.
  - discriminate.
Defined.

(** ** Oversized contents *)

Section Oversized.
Variable get_token_length : string -> nat.
Variable SentenceSplitter_split_text : Z -> string -> list string.

#[local] Abbreviation tok := get_token_length.
#[local] Abbreviation process :=
  (process_tree_to_chunks get_token_length SentenceSplitter_split_text).
#[local] Abbreviation own :=
  (own_chunks get_token_length SentenceSplitter_split_text).

(** X8. For a node whose token length exceeds the budget: when the
    tokenizer counts fewer than ten tokens in its content, the content yields
    no chunk at all (a leaf then returns the empty list); otherwise a
    non-blank content yields one chunk per group the sentence splitter returns
    for chunk size 500, whatever the budget is, each with the group as
    content, its recomputed token length, the current header path and the
    node's whole page set. *)
Theorem oversized_content_chunks (root : TreeElement.t) (max_tokens : Z)
    (current_headers : list string) :
  max_tokens < TreeElement.token_length root ->
  ((tok (TreeElement.content root) < 10)%nat ->
   own root max_tokens current_headers = []
   /\ (TreeElement.children root = [] ->
       process root max_tokens current_headers = []))
  /\ ((10 <= tok (TreeElement.content root))%nat ->
      Py.truthy (Py.strip (TreeElement.content root)) = true ->
      own root max_tokens current_headers
      = map (fun group =>
               SemanticChunk.mk group (Z.of_nat (tok group))
                 current_headers (TreeElement.pages root))
            (SentenceSplitter_split_text 500 (TreeElement.content root))).
Proof.
  intros Hbig. apply Z.ltb_lt in Hbig. split.
  - intros Hshort.
    assert (Hown : own root max_tokens current_headers = []).
    { unfold own_chunks, split_text_into_sentences. rewrite Hbig.
      destruct (Py.truthy _); [|reflexivity].
      destruct (Z.ltb_spec (Z.of_nat (tok (TreeElement.content root))) 10);
        [reflexivity | lia]. }
    split; [exact Hown|]. intros Hleaf.
    rewrite process_unfold. unfold chunks_before_merge.
    rewrite Hleaf, Hown. reflexivity.
  - intros Hlong Hcontent.
    unfold own_chunks, split_text_into_sentences.
    rewrite Hbig, Hcontent.
    destruct (Z.ltb_spec (Z.of_nat (tok (TreeElement.content root))) 10);
      [lia | reflexivity].
Qed.

End Oversized.

(** The hypotheses of X8 hold for a leaf of three words under a budget of
    two, and for the twelve-word leaf under a budget of three. *)
Lemma oversized_content_chunks_witness :
  process_tree_to_chunks word_count one_group_splitter
    (TreeElement.mk None "a b c" 3 [] ∅) 2 [] = []
  /\ own_chunks word_count one_group_splitter twelve_word_leaf 3 []
     = [SemanticChunk.mk twelve_words 12 [] ∅].
Proof.
  split.
  - apply (proj1 (oversized_content_chunks word_count one_group_splitter
                    (TreeElement.mk None "a b c" 3 [] ∅) 2 []
                    ltac:(reflexivity))).
    + vm_compute. lia.
    + reflexivity.
  - apply (proj2 (oversized_content_chunks word_count one_group_splitter
                    twelve_word_leaf 3 [] ltac:(reflexivity))).
    + vm_compute. lia.
    + reflexivity.
Defined.

(** ** The tree builder *)

Section TreeBuilder.
Variable get_token_length : string -> nat.
Variable get_nodes_from_node : string -> list section_node.

#[local] Abbreviation parse :=
  (parse_markdown_to_tree get_token_length get_nodes_from_node).
#[local] Abbreviation leaf_of := (new_child_of get_token_length).
#[local] Abbreviation add_all := (add_sections get_token_length).

Lemma append_at_label (new_child : TreeElement.t) (path_parts : list string)
    (current_element : TreeElement.t) :
  label_of (append_at path_parts new_child current_element)
  = label_of current_element.
Proof. destruct path_parts; reflexivity. Qed.

Lemma descend_nonempty (part : string) (f : TreeElement.t -> TreeElement.t)
    (cs : list TreeElement.t) : descend part f cs <> [].
Proof.
  destruct cs as [|c r]; simpl; [discriminate|].
  destruct (header_is part c); discriminate.
Qed.

Lemma append_at_children_nonempty (new_child : TreeElement.t)
    (path_parts : list string) (current_element : TreeElement.t) :
  TreeElement.children (append_at path_parts new_child current_element)
  <> [].
Proof.
  destruct path_parts as [|part rest]; cbn [append_at with_children
    TreeElement.children].
  - destruct (TreeElement.children current_element); discriminate.
  - apply descend_nonempty.
Qed.

Lemma add_sections_root (page_break : string) (pages : list string) :
  forall nodes root t,
    add_all page_break pages root nodes = Ok t ->
    label_of t = label_of root
    /\ (nodes <> [] \/ TreeElement.children root <> [] ->
        TreeElement.children t <> []).
Proof.
  induction nodes as [|node rest IH]; intros root t; cbn [add_sections].
  - intros [= <-]. split; [reflexivity|]. intros [H|H]; congruence.
  - unfold add_section.
    destruct (leaf_of page_break pages node) as [leaf|e]; [|discriminate].
    intros Ht. destruct (IH _ _ Ht) as [Hlabel Hchildren].
    split; [rewrite Hlabel; apply append_at_label|].
    intros _. apply Hchildren. right. apply append_at_children_nonempty.
Qed.

(** X9. Whatever the document, the tree a successful call returns has a
    bare root: no header, an empty content, token length zero, no page, and
    at least one child. *)
Theorem parsed_root_is_bare (markdown_text page_break : string)
    (t : TreeElement.t) :
  parse markdown_text page_break = Ok t ->
  TreeElement.header t = None
  /\ TreeElement.content t = ""
  /\ TreeElement.token_length t = 0
  /\ TreeElement.pages t = ∅
  /\ TreeElement.children t <> [].
Proof.
  unfold parse_markdown_to_tree. destruct (negb _); [discriminate|].
  destruct (Py.split page_break markdown_text) as [pages|]; [|discriminate].
  destruct (get_nodes_from_node markdown_text) as [|node rest] eqn:Hnodes;
    [discriminate|].
  intros Ht. destruct (add_sections_root _ _ _ _ _ Ht) as [Hlabel Hch].
  unfold label_of in Hlabel. cbn in Hlabel.
  injection Hlabel as Hh Hc Htl Hpg.
  repeat split; try assumption. apply Hch. left; discriminate.
Qed.

(** X10. Every section of the Segment Source has a node in the returned
    tree that carries the section's header text and content, the tokenizer's
    count of that content, and as pages the contiguous range that starts at
    the section's page index and has one index more than the section's text
    has page-break delimiters. *)
Theorem every_section_has_a_node (markdown_text page_break : string)
    (pages : list string) (t : TreeElement.t) (s : section_node) :
  parse markdown_text page_break = Ok t ->
  Py.split page_break markdown_text = Some pages ->
  s ∈ get_nodes_from_node markdown_text ->
  exists first,
    Py.splitlines_first (raw_text s) = Some first
    /\ let page_index := find_page first 0 pages in
       let span :=
         range_set page_index
           (page_index + Z.of_nat (Py.count page_break (raw_text s)) + 1) in
       (fst (header_and_content (raw_text s)),
        snd (header_and_content (raw_text s)),
        Z.of_nat (get_token_length (snd (header_and_content (raw_text s)))),
        span) ∈ tree_labels t
       /\ (forall i, i ∈ span
             <-> page_index <= i
                 <= page_index + Z.of_nat (Py.count page_break (raw_text s))).
Proof.
  intros Ht Hsplit Hs. unfold parse_markdown_to_tree in Ht.
  destruct (negb _); [discriminate|]. rewrite Hsplit in Ht.
  destruct (get_nodes_from_node markdown_text) as [|n0 r0] eqn:Hnodes;
    [inversion Hs|].
  destruct (add_sections_labels get_token_length _ _ _ _ _ Ht) as [_ Hnew].
  destruct (Hnew s Hs) as (leaf & Hleaf & Hin).
  destruct (leaf_of_cases get_token_length page_break pages s
              (split_pages_nonempty _ _ _ Hsplit))
    as [[_ Hraise]|[_ (first & Hfirst & Hok)]];
    [rewrite Hraise in Hleaf; discriminate|].
  rewrite Hok in Hleaf. injection Hleaf as <-.
  exists first; split; [exact Hfirst|]. cbv zeta. split; [exact Hin|].
  intros i. unfold range_set. rewrite elem_of_list_to_set, elem_of_seqZ.
  lia.
Qed.

Lemma find_page_spec (first : string) :
  forall pages k,
    (find_page first k pages = -1
     /\ Forall (fun page => Py.contains first page = false) pages)
    \/ (exists n page,
          find_page first k pages = k + Z.of_nat n
          /\ pages !! n = Some page
          /\ Py.contains first page = true
          /\ Forall (fun page' => Py.contains first page' = false)
               (take n pages)).
Proof.
  induction pages as [|pg r IH]; intros k; simpl.
  - left; split; [reflexivity | apply Forall_nil_2].
  - destruct (Py.contains first pg) eqn:Hpg.
    + right; exists 0%nat, pg. repeat split; [lia | exact Hpg|].
      apply Forall_nil_2.
    + destruct (IH (k + 1)) as [[Hnone Hall]|(n & page & Hk & Hn & Hp & Hb)].
      * left; split; [exact Hnone|].
        apply Forall_cons; split; assumption.
      * right; exists (S n), page. repeat split; [lia | exact Hn | exact Hp|].
        simpl. apply Forall_cons; split; assumption.
Qed.

(** X11. The page index of a section is the index of the first page that
    contains the section's first raw line: no earlier page contains the line,
    and the index is below the number of pages; when no page contains the
    line, it is the sentinel [-1]. *)
Theorem page_index_is_first_match (pages : list string)
    (node_text first : string) :
  pages <> [] ->
  Py.splitlines_first node_text = Some first ->
  exists i,
    page_index_of pages node_text = Ok i
    /\ ((i = -1
         /\ Forall (fun page => Py.contains first page = false) pages)
        \/ (0 <= i < Z.of_nat (List.length pages)
            /\ (exists page, pages !! Z.to_nat i = Some page
                             /\ Py.contains first page = true)
            /\ Forall (fun page => Py.contains first page = false)
                 (take (Z.to_nat i) pages))).
Proof.
  intros Hpages Hfirst. unfold page_index_of. rewrite Hfirst.
  destruct pages as [|pg r] eqn:E; [congruence|]. rewrite <- E. clear E.
  eexists; split; [reflexivity|].
  destruct (find_page_spec first pages 0)
    as [[Hnone Hall]|(n & page & Hk & Hn & Hp & Hb)].
  - left; split; assumption.
  - right. rewrite Hk. rewrite Z.add_0_l, Nat2Z.id.
    pose proof (lookup_lt_Some _ _ _ Hn).
    split; [lia|]. split; [exists page; split; assumption | exact Hb].
Qed.

Lemma find_child_descend (part : string)
    (f : TreeElement.t -> TreeElement.t) :
  (forall c, TreeElement.header (f c) = TreeElement.header c) ->
  forall cs,
    find_child part (descend part f cs)
    = Some (f (default (TreeElement.mk (Some part) "" 0 [] ∅)
                 (find_child part cs))).
Proof.
  intros Hf cs.
  assert (Hh : forall c, header_is part (f c) = header_is part c)
    by (intros c; unfold header_is; rewrite Hf; reflexivity).
  induction cs as [|c r IH]; cbn [descend find_child].
  - rewrite Hh. unfold header_is; simpl. rewrite String.eqb_refl.
    reflexivity.
  - destruct (header_is part c) eqn:Hc; cbn [find_child].
    + rewrite Hh, Hc. reflexivity.
    + rewrite Hc. exact IH.
Qed.

(** X12. Insert, then look up: after a section's leaf is added along a
    header path, walking that path from the same node (at each part, the
    first child whose header equals it) ends at a node whose children are
    those it had before followed by the new leaf.  When the path already
    existed, that node is the one the walk reached before; when it did not,
    the node is new and the leaf is its only child. *)
Theorem walk_after_append (new_child : TreeElement.t) :
  forall path_parts current_element,
    exists m,
      walk path_parts (append_at path_parts new_child current_element)
      = Some (with_children m (TreeElement.children m ++ [new_child]))
      /\ (forall m', walk path_parts current_element = Some m' -> m = m')
      /\ (walk path_parts current_element = None ->
          TreeElement.children m = []).
Proof.
  induction path_parts as [|part rest IH]; intros cur.
  - exists cur. cbn [walk append_at]. split; [reflexivity|].
    split; [intros m' [= <-]; reflexivity | discriminate].
  - cbn [walk append_at with_children TreeElement.children].
    rewrite find_child_descend
      by (intros c; pose proof (append_at_label new_child rest c) as E;
          unfold label_of in E; congruence).
    destruct (find_child part (TreeElement.children cur)) as [c|] eqn:Hfind;
      cbn [default].
    + destruct (IH c) as (m & Hwalk & Hsome & Hnone).
      exists m; split; [exact Hwalk|]. split; assumption.
    + destruct (IH (TreeElement.mk (Some part) "" 0 [] ∅))
        as (m & Hwalk & Hsome & Hnone).
      exists m; split; [exact Hwalk|]. split; [discriminate|].
      intros _. destruct rest as [|part' rest'].
      * rewrite (Hsome _ eq_refl). reflexivity.
      * apply Hnone. reflexivity.
Qed.

End TreeBuilder.

(** The hypothesis of X9 holds for the document [Hello world.]. *)
Lemma parsed_root_is_bare_witness :
  TreeElement.header hello_tree = None
  /\ TreeElement.content hello_tree = ""
  /\ TreeElement.token_length hello_tree = 0
  /\ TreeElement.pages hello_tree = ∅
  /\ TreeElement.children hello_tree <> [].
Proof.
  apply (parsed_root_is_bare word_count one_section_source "Hello world."
           default_page_break hello_tree).
  vm_compute. reflexivity.
Defined.

(** The hypotheses of X10 hold for the section that spans three pages. *)
Lemma every_section_has_a_node_witness :
  exists first,
    Py.splitlines_first (raw_text (mk_section three_page_section (Some "/")))
    = Some first
    /\ let page_index :=
         find_page first 0 ["# T" ++ LF ++ "a"; "b"; "c"] in
       let span :=
         range_set page_index
           (page_index
            + Z.of_nat (Py.count default_page_break
                (raw_text (mk_section three_page_section (Some "/"))))
            + 1) in
       (fst (header_and_content
               (raw_text (mk_section three_page_section (Some "/")))),
        snd (header_and_content
               (raw_text (mk_section three_page_section (Some "/")))),
        Z.of_nat (word_count (snd (header_and_content
               (raw_text (mk_section three_page_section (Some "/")))))),
        span)
       ∈ tree_labels
           (TreeElement.mk None "" 0
              [TreeElement.mk (Some "T")
                 ("a" ++ LF ++ "b" ++ LF ++ "---" ++ LF ++ "c") 4 []
                 (range_set 0 3)] ∅)
       /\ (forall i, i ∈ span
             <-> page_index <= i
                 <= page_index
                    + Z.of_nat (Py.count default_page_break
                        (raw_text (mk_section three_page_section
                                     (Some "/"))))).
Proof.
  apply (every_section_has_a_node word_count one_section_source
           three_page_section default_page_break
           ["# T" ++ LF ++ "a"; "b"; "c"]).
  - vm_compute. reflexivity.
  - vm_compute. reflexivity.
  - apply list_elem_of_here.
Defined.

(** The hypotheses of X11 hold for the second of two pages. *)
Lemma page_index_is_first_match_witness :
  exists i,
    page_index_of ["alpha"; "beta"] ("beta" ++ LF ++ "more") = Ok i
    /\ ((i = -1
         /\ Forall (fun page => Py.contains "beta" page = false)
              ["alpha"; "beta"])
        \/ (0 <= i < Z.of_nat (List.length ["alpha"; "beta"])
            /\ (exists page, ["alpha"; "beta"] !! Z.to_nat i = Some page
                             /\ Py.contains "beta" page = true)
            /\ Forall (fun page => Py.contains "beta" page = false)
                 (take (Z.to_nat i) ["alpha"; "beta"]))).
Proof.
  apply (page_index_is_first_match ["alpha"; "beta"]
           ("beta" ++ LF ++ "more") "beta").
  - discriminate.
  - reflexivity.
Defined.

(** ** Section lines and heading lines *)





Lemma string_app_cons (c : ascii) (a b : string) :
  String c a ++ b = String c (a ++ b).
Proof. reflexivity. Qed.

Lemma span_hashes_heading (n : nat) (s : string) :
  span_hashes (Py.repeat_char "#" n ++ String " " s) = (n, String " " s).
Proof.
  induction n as [|n IH]; [reflexivity|].
  cbn [Py.repeat_char]. rewrite string_app_cons.
  cbn [span_hashes]. rewrite IH. reflexivity.
Qed.

Lemma lstrip_no_line_feed (s : string) :
  no_line_feed s -> no_line_feed (Py.lstrip s).
Proof.
  unfold no_line_feed. induction s as [|c s IH]; simpl; [auto|].
  intros H. destruct (Py.isspace c); [|exact H].
  apply Forall_cons in H as [_ H]. apply IH, H.
Qed.

Lemma break_lf_no_line_feed (s : string) :
  no_line_feed s -> break_lf s = (s, "").
Proof.
  unfold no_line_feed. induction s as [|c s IH]; simpl; [reflexivity|].
  intros H. apply Forall_cons in H as [Hc H].
  destruct (Ascii.eqb_spec c "010"); [congruence|].
  rewrite (IH H). reflexivity.
Qed.

(** X14. The inline heading line that [combine_chunks] writes for a header
    is a heading line for the parser's own pattern: for a level of at least
    one and a header without line feed, the line matches, with the same
    number of hash marks and with the header (less its leading white space) as
    heading text. *)
Theorem inline_heading_is_heading (level : nat) (header : string) :
  (1 <= level)%nat ->
  no_line_feed header ->
  match_heading (heading_line level header)
  = Some (Py.repeat_char "#" level, Py.lstrip header).
Proof.
  intros Hlevel Hlf. unfold match_heading, heading_line.
  change (" " ++ header) with (String " " header).
  rewrite span_hashes_heading.
  destruct level as [|k]; [lia|].
  change (Py.isspace " ") with true. cbn iota.
  change (Py.lstrip (String " " header)) with (Py.lstrip header).
  rewrite (break_lf_no_line_feed _ (lstrip_no_line_feed _ Hlf)).
  reflexivity.
Qed.

(** The hypotheses of X14 hold for a level-2 heading. *)
Lemma inline_heading_is_heading_witness :
  match_heading (heading_line 2 "Sub title")
  = Some (Py.repeat_char "#" 2, Py.lstrip "Sub title").
Proof.
  apply (inline_heading_is_heading 2 "Sub title").
  - lia.
  - repeat (apply Forall_cons; split; [discriminate|]). apply Forall_nil_2.
Defined.

(** ** The header path of a section *)

Lemma split_scan_slash_part (p : string) :
  no_slash p ->
  forall cur s,
    Py.split_scan "/" 0 cur (p ++ s)
    = Py.split_scan "/" 0 (rev (list_ascii_of_string p) ++ cur) s.
Proof.
  unfold no_slash. induction p as [|c p IH]; intros H cur s;
    [reflexivity|].
  cbn [list_ascii_of_string] in H. apply Forall_cons in H as [Hc H].
  rewrite string_app_cons. cbn [Py.split_scan Py.startswith].
  destruct (Ascii.eqb_spec "/" c) as [E|_]; [congruence|].
  cbn [andb]. rewrite (IH H). cbn [list_ascii_of_string rev].
  rewrite <- app_assoc. reflexivity.
Qed.

Lemma split_scan_slash_join (ps : list string) :
  forall p cur,
    Forall no_slash (p :: ps) ->
    Py.split_scan "/" 0 cur (Py.join "/" (p :: ps))
    = string_of_list_ascii (rev cur ++ list_ascii_of_string p) :: ps.
Proof.
  induction ps as [|p2 r IH]; intros p cur Hall;
    apply Forall_cons in Hall as [Hp Hrest].
  - cbn [Py.join]. rewrite <- (string_app_nil_r p) at 1.
    rewrite (split_scan_slash_part p Hp). cbn [Py.split_scan].
    rewrite rev_app_distr, rev_involutive. reflexivity.
  - change (Py.join "/" (p :: p2 :: r))
      with (p ++ String "/" (Py.join "/" (p2 :: r))).
    rewrite (split_scan_slash_part p Hp).
    cbn [Py.split_scan Py.startswith].
    change (Ascii.eqb "/" "/") with true. cbn [andb].
    change (String.length "/" - 1)%nat with 0%nat.
    rewrite (IH p2 [] Hrest), rev_app_distr, rev_involutive.
    cbn [rev app]. rewrite string_of_list_ascii_of_string. reflexivity.
Qed.

Lemma rstrip_char_drop (ch : ascii) (s : string) :
  Py.rstrip_char ch (s ++ String ch "") = Py.rstrip_char ch s.
Proof.
  induction s as [|x s IH].
  - change ("" ++ String ch "") with (String ch "").
    cbn [Py.rstrip_char]. rewrite Ascii.eqb_refl. reflexivity.
  - rewrite string_app_cons. cbn [Py.rstrip_char]. rewrite IH. reflexivity.
Qed.

Lemma rstrip_char_keep (ch c : ascii) (s : string) :
  c <> ch -> Py.rstrip_char ch (s ++ String c "") = s ++ String c "".
Proof.
  intros Hc. induction s as [|x s IH].
  - change ("" ++ String c "") with (String c "").
    cbn [Py.rstrip_char].
    destruct (Ascii.eqb_spec c ch); [congruence | reflexivity].
  - rewrite string_app_cons. cbn [Py.rstrip_char]. rewrite IH.
    destruct s; reflexivity.
Qed.

Lemma string_last_char (s : string) :
  s <> "" -> exists s' c, s = s' ++ String c "".
Proof.
  induction s as [|x s IH]; [congruence|]. intros _.
  destruct s as [|y s].
  - exists "", x. reflexivity.
  - destruct IH as (s' & c & E); [discriminate|].
    exists (String x s'), c. rewrite string_app_cons, <- E. reflexivity.
Qed.

Lemma no_slash_last_char (s : string) (c : ascii) :
  no_slash (s ++ String c "") -> c <> "/"%char.
Proof.
  unfold no_slash. induction s as [|x s IH].
  - cbn. intros H. apply Forall_cons in H as [H _]. exact H.
  - rewrite string_app_cons. cbn [list_ascii_of_string]. intros H.
    apply Forall_cons in H as [_ H]. apply IH, H.
Qed.

Lemma join_ends_with_last (sep lp : string) (init : list string) :
  exists q, Py.join sep (init ++ [lp]) = q ++ lp.
Proof.
  induction init as [|p r IH].
  - exists "". reflexivity.
  - destruct IH as [q E]. cbn [app].
    destruct (r ++ [lp])%list as [|p2 r2] eqn:Hr.
    + destruct r; discriminate Hr.
    + change (Py.join sep (p :: p2 :: r2))
        with (p ++ sep ++ Py.join sep (p2 :: r2)).
      rewrite E. exists (p ++ sep ++ q).
      rewrite !string_app_assoc. reflexivity.
Qed.

Lemma join_starts_with_first (sep : string) (c : ascii) (p : string)
    (ps : list string) :
  exists j, Py.join sep (String c p :: ps) = String c j.
Proof.
  destruct ps as [|p2 r]; [exists p; reflexivity|].
  exists (p ++ sep ++ Py.join sep (p2 :: r)). reflexivity.
Qed.

(** X15. The header path of a section is read back exactly: a section
    without the [header_path] entry, or with the entry [/], is at root
    level; and the entry that writes a non-empty list of parts between
    slashes, with a slash before and after, is read as that list of parts,
    provided no part contains a slash and neither the first nor the last part
    is empty. *)
Theorem path_parts_round_trip (raw : string) (parts : list string) :
  path_parts_of (mk_section raw None) = []
  /\ path_parts_of (mk_section raw (Some "/")) = []
  /\ (parts <> [] ->
      Forall no_slash parts ->
      head parts <> Some "" ->
      last parts <> Some "" ->
      path_parts_of
        (mk_section raw (Some ("/" ++ Py.join "/" parts ++ "/")))
      = parts).
Proof.
  split; [reflexivity|]. split; [reflexivity|].
  intros Hne Hall Hhead Hlast.
  destruct parts as [|p ps]; [congruence|].
  destruct p as [|c p]; [cbn in Hhead; congruence|].
  pose proof Hall as Hall'. apply Forall_cons in Hall' as [Hp _].
  assert (Hc : c <> "/"%char)
    by (unfold no_slash in Hp; cbn in Hp;
        apply Forall_cons in Hp as [Hp _]; exact Hp).
  destruct (join_starts_with_first "/" c p ps) as [j Hj].
  destruct (proj2 (last_is_Some (String c p :: ps)) Hne) as [lp Hlp].
  pose proof (last_Some_elem_of _ _ Hlp) as Hlp_in.
  apply last_Some in Hlp as [init Hinit].
  assert (Hlp_ne : lp <> "")
    by (intros ->; apply Hlast; rewrite Hinit; apply last_snoc).
  destruct (string_last_char lp Hlp_ne) as (lp' & d & ->).
  assert (Hd : d <> "/"%char).
  { apply (no_slash_last_char lp'). rewrite Forall_forall in Hall.
    apply Hall, Hlp_in. }
  destruct (join_ends_with_last "/" (lp' ++ String d "") init) as [q Hq].
  rewrite <- Hinit in Hq.
  unfold path_parts_of; cbn [header_path default from_option id].
  assert (Hstrip : Py.strip_char "/"
            ("/" ++ Py.join "/" (String c p :: ps) ++ "/")
          = Py.join "/" (String c p :: ps)).
  { unfold Py.strip_char. rewrite string_app_cons.
    cbn [Py.lstrip_char]. rewrite Ascii.eqb_refl.
    change ("" ++ Py.join "/" (String c p :: ps) ++ "/")
      with (Py.join "/" (String c p :: ps) ++ "/").
    rewrite Hj at 1. rewrite string_app_cons. cbn [Py.lstrip_char].
    destruct (Ascii.eqb_spec c "/"); [congruence|].
    rewrite <- string_app_cons, <- Hj.
    rewrite rstrip_char_drop, Hq, <- string_app_assoc.
    apply rstrip_char_keep, Hd. }
  rewrite Hstrip. rewrite Hj at 1. cbn [Py.truthy].
  rewrite (split_scan_slash_join ps (String c p) [] Hall).
  cbn [rev app]. rewrite string_of_list_ascii_of_string. reflexivity.
Qed.

(** The hypotheses of X15 hold for the path of a subsection of [Title]. *)
Lemma path_parts_round_trip_witness :
  path_parts_of
    (mk_section "text" (Some ("/" ++ Py.join "/" ["Title"; "Sub"] ++ "/")))
  = ["Title"; "Sub"].
Proof.
  apply (proj2 (proj2 (path_parts_round_trip "text" ["Title"; "Sub"]))).
  - discriminate.
  - repeat (apply Forall_cons; split;
            [repeat (apply Forall_cons; split; [discriminate|]);
             apply Forall_nil_2|]).
    apply Forall_nil_2.
  - discriminate.
  - discriminate.
Defined.

(** ** From a document to its chunks *)

(** A label whose content, when it is emitted, carries the tokenizer's
    count as token length. *)
Definition counted (tok : string -> nat) (l : node_label) : Prop :=
  Py.truthy (Py.strip (snd (fst (fst l)))) = true ->
  snd (fst l) = Z.of_nat (tok (snd (fst (fst l)))).

Section DocumentToChunks.
Variable get_token_length : string -> nat.
Variable get_nodes_from_node : string -> list section_node.
Variable SentenceSplitter_split_text : Z -> string -> list string.

#[local] Abbreviation tok := get_token_length.
#[local] Abbreviation parse :=
  (parse_markdown_to_tree get_token_length get_nodes_from_node).
#[local] Abbreviation leaf_of := (new_child_of get_token_length).
#[local] Abbreviation add_all := (add_sections get_token_length).
#[local] Abbreviation process :=
  (process_tree_to_chunks get_token_length SentenceSplitter_split_text).

Lemma descend_labels_Forall (P : node_label -> Prop) (part : string)
    (f : TreeElement.t -> TreeElement.t) :
  (forall c, Forall P (tree_labels c) -> Forall P (tree_labels (f c))) ->
  P (Some part, "", 0, ∅) ->
  forall cs,
    Forall P (flat_map tree_labels cs) ->
    Forall P (flat_map tree_labels (descend part f cs)).
Proof.
  intros Hf Hfresh cs; induction cs as [|c r IH]; cbn [descend flat_map].
  - intros _. rewrite app_nil_r. apply Hf. simpl.
    apply Forall_cons; split; [exact Hfresh | apply Forall_nil_2].
  - intros H. apply Forall_app in H as [Hc Hr].
    destruct (header_is part c); cbn [flat_map]; apply Forall_app; split;
      auto.
Qed.

Lemma append_at_labels_Forall (P : node_label -> Prop)
    (new_child : TreeElement.t) :
  (forall part, P (Some part, "", 0, ∅)) ->
  Forall P (tree_labels new_child) ->
  forall path_parts current_element,
    Forall P (tree_labels current_element) ->
    Forall P (tree_labels (append_at path_parts new_child current_element)).
Proof.
  intros Hfresh Hleaf.
  induction path_parts as [|part rest IH]; intros cur;
    rewrite (tree_labels_unfold cur); cbn [append_at];
    rewrite tree_labels_with_children; intros H;
    apply Forall_cons in H as [Hcur Hcs]; apply Forall_cons;
    (split; [exact Hcur|]).
  - rewrite flat_map_app. apply Forall_app; split; [exact Hcs|].
    cbn [flat_map]. rewrite app_nil_r. exact Hleaf.
  - apply descend_labels_Forall; [exact IH | apply Hfresh | exact Hcs].
Qed.

Lemma add_sections_labels_Forall (P : node_label -> Prop)
    (page_break : string) (pages : list string) :
  (forall part, P (Some part, "", 0, ∅)) ->
  (forall node leaf, leaf_of page_break pages node = Ok leaf ->
                     Forall P (tree_labels leaf)) ->
  forall nodes root t,
    add_all page_break pages root nodes = Ok t ->
    Forall P (tree_labels root) -> Forall P (tree_labels t).
Proof.
  intros Hfresh Hleaf.
  induction nodes as [|node rest IH]; intros root t; cbn [add_sections].
  - intros [= <-] H; exact H.
  - unfold add_section.
    destruct (leaf_of page_break pages node) as [leaf|e] eqn:E;
      [|discriminate].
    intros Ht Hroot. apply (IH _ _ Ht).
    apply append_at_labels_Forall; [exact Hfresh | | exact Hroot].
    apply (Hleaf node), E.
Qed.

Lemma leaf_of_counted (page_break : string) (pages : list string)
    (node : section_node) (leaf : TreeElement.t) :
  leaf_of page_break pages node = Ok leaf ->
  Forall (counted tok) (tree_labels leaf).
Proof.
  unfold new_child_of.
  destruct (header_and_content (raw_text node)) as [h c].
  destruct (page_index_of pages (raw_text node)); [|discriminate].
  intros [= <-]. simpl.
  apply Forall_cons; split; [|apply Forall_nil_2].
  intros _. reflexivity.
Qed.

Lemma parsed_labels_counted (markdown_text page_break : string)
    (t : TreeElement.t) :
  parse markdown_text page_break = Ok t ->
  Forall (counted tok) (tree_labels t).
Proof.
  unfold parse_markdown_to_tree. destruct (negb _); [discriminate|].
  destruct (Py.split page_break markdown_text) as [pages|]; [|discriminate].
  destruct (get_nodes_from_node markdown_text) as [|n0 r0]; [discriminate|].
  intros Ht.
  apply (add_sections_labels_Forall (counted tok) page_break pages
           (fun part Hc => ltac:(discriminate Hc))
           (leaf_of_counted page_break pages) _ _ _ Ht).
  simpl. apply Forall_cons; split; [|apply Forall_nil_2].
  intros Hc; discriminate Hc.
Qed.

(** X16. Every chunk made from a parsed document, merged or not, fallback
    group or not, carries as token length the tokenizer's count of its own
    content. *)
Theorem parsed_chunks_token_length (markdown_text page_break : string)
    (t : TreeElement.t) (max_tokens : Z) (current_headers : list string) :
  parse markdown_text page_break = Ok t ->
  Forall (fun k => SemanticChunk.token_length k
                   = Z.of_nat (tok (SemanticChunk.content k)))
    (process t max_tokens current_headers).
Proof.
  intros Ht. apply process_token_length_count.
  intros h c tl pg Hin Hc.
  pose proof (parsed_labels_counted _ _ _ Ht) as Hall.
  rewrite Forall_forall in Hall. exact (Hall _ Hin Hc).
Qed.

(** X17. No section within the budget is lost on the way from the document
    to the formatted chunks: when the call succeeds, the content of every
    section that is non-blank and counts at most [max_tokens] tokens occurs
    verbatim, as a contiguous piece, in one of the strings
    [get_semantic_chunks] returns for the tree. *)
Theorem section_content_reaches_output (markdown_text page_break : string)
    (t : TreeElement.t) (max_tokens : Z) (s : section_node) :
  parse markdown_text page_break = Ok t ->
  s ∈ get_nodes_from_node markdown_text ->
  Py.truthy (Py.strip (snd (header_and_content (raw_text s)))) = true ->
  Z.of_nat (tok (snd (header_and_content (raw_text s)))) <= max_tokens ->
  exists out,
    out ∈ get_semantic_chunks get_token_length SentenceSplitter_split_text
            t max_tokens
    /\ occurs_in (snd (header_and_content (raw_text s))) out.
Proof.
  intros Ht Hs Hc Hfit.
  assert (Hlabel : exists h pg,
    (h, snd (header_and_content (raw_text s)),
     Z.of_nat (tok (snd (header_and_content (raw_text s)))), pg)
    ∈ tree_labels t).
  { unfold parse_markdown_to_tree in Ht.
    destruct (negb _); [discriminate|].
    destruct (Py.split page_break markdown_text) as [pages|] eqn:Hsplit;
      [|discriminate].
    destruct (get_nodes_from_node markdown_text) as [|n0 r0];
      [inversion Hs|].
    destruct (add_sections_labels get_token_length _ _ _ _ _ Ht)
      as [_ Hnew].
    destruct (Hnew s Hs) as (leaf & Hleaf & Hin).
    destruct (leaf_of_cases get_token_length page_break pages s
                (split_pages_nonempty _ _ _ Hsplit))
      as [[_ Hraise]|[_ (first & _ & Hok)]];
      [rewrite Hraise in Hleaf; discriminate|].
    rewrite Hok in Hleaf. injection Hleaf as <-.
    eexists _, _. exact Hin. }
  destruct Hlabel as (h & pg & Hin).
  destruct (process_keeps_content get_token_length
              SentenceSplitter_split_text t max_tokens [] _ _ _ _
              Hin Hc Hfit) as (k & Hk & Hocc).
  exists (format_chunk_with_headers (SemanticChunk.headers k)
            (SemanticChunk.content k) false).
  split.
  - unfold get_semantic_chunks. apply list_elem_of_fmap.
    exists k; split; [reflexivity | exact Hk].
  - unfold format_chunk_with_headers.
    destruct (SemanticChunk.headers k); [exact Hocc|].
    apply occurs_in_app_r, occurs_in_app_r, Hocc.
Qed.

End DocumentToChunks.

(** The hypothesis of X16 holds for the document [Hello world.]. *)
Lemma parsed_chunks_token_length_witness :
  Forall (fun k => SemanticChunk.token_length k
                   = Z.of_nat (word_count (SemanticChunk.content k)))
    (process_tree_to_chunks word_count one_group_splitter hello_tree 100 []).
Proof.
  apply (parsed_chunks_token_length word_count one_section_source
           one_group_splitter "Hello world." default_page_break).
  vm_compute. reflexivity.
Defined.

(** The hypotheses of X17 hold for the document [Hello world.]. *)
Lemma section_content_reaches_output_witness :
  exists out,
    out ∈ get_semantic_chunks word_count one_group_splitter hello_tree 100
    /\ occurs_in
         (snd (header_and_content
                 (raw_text (mk_section "Hello world." (Some "/"))))) out.
Proof.
  apply (section_content_reaches_output word_count one_section_source
           one_group_splitter "Hello world." default_page_break).
  - vm_compute. reflexivity.
  - apply list_elem_of_here.
  - reflexivity.
  - vm_compute. discriminate.
Defined.

(** ** Detected headers *)

Lemma rstrip_idem (s : string) : Py.rstrip (Py.rstrip s) = Py.rstrip s.
Proof.
  induction s as [|c s IH]; [reflexivity|]. cbn [Py.rstrip].
  destruct (Py.rstrip s) as [|c' r] eqn:E.
  - destruct (Py.isspace c) eqn:Hc; [reflexivity|].
    cbn [Py.rstrip]. rewrite Hc. reflexivity.
  - cbn [Py.rstrip] in IH |- *. rewrite IH. reflexivity.
Qed.

Lemma rstrip_head (e : ascii) (a : string) :
  Py.isspace e = false -> exists y, Py.rstrip (String e a) = String e y.
Proof.
  intros He. cbn [Py.rstrip]. destruct (Py.rstrip a) as [|c r].
  - rewrite He. exists "". reflexivity.
  - exists (String c r). reflexivity.
Qed.

Lemma lstrip_head (s : string) :
  Py.lstrip s = ""
  \/ exists e y, Py.lstrip s = String e y /\ Py.isspace e = false.
Proof.
  induction s as [|c s IH]; [left; reflexivity|]. cbn [Py.lstrip].
  destruct (Py.isspace c) eqn:Hc; [exact IH|].
  right; exists c, s; split; [reflexivity | exact Hc].
Qed.

Lemma strip_idem (s : string) : Py.strip (Py.strip s) = Py.strip s.
Proof.
  unfold Py.strip.
  destruct (lstrip_head s) as [->|(e & y & -> & He)]; [reflexivity|].
  destruct (rstrip_head e y He) as [y' Hy]. rewrite Hy.
  cbn [Py.lstrip]. rewrite He, <- Hy. apply rstrip_idem.
Qed.

Lemma rstrip_last (s : string) :
  Py.rstrip s = ""
  \/ exists s' d, Py.rstrip s = s' ++ String d "" /\ Py.isspace d = false.
Proof.
  induction s as [|c s IH]; [left; reflexivity|]. cbn [Py.rstrip].
  destruct IH as [->|(s' & d & -> & Hd)].
  - destruct (Py.isspace c) eqn:Hc; [left; reflexivity|].
    right; exists "", c; split; [reflexivity | exact Hc].
  - right; exists (String c s'), d. split; [|exact Hd].
    destruct s'; reflexivity.
Qed.

Lemma span_hashes_decompose (s : string) :
  forall k rest,
    span_hashes s = (k, rest) -> s = Py.repeat_char "#" k ++ rest.
Proof.
  induction s as [|c s IH]; intros k rest; cbn [span_hashes].
  - intros [= <- <-]. reflexivity.
  - destruct (Ascii.eqb_spec c "#") as [->|_].
    + destruct (span_hashes s) as [k' r'] eqn:E. intros [= <- <-].
      cbn [Py.repeat_char]. rewrite string_app_cons, <- (IH _ _ eq_refl).
      reflexivity.
    + intros [= <- <-]. reflexivity.
Qed.

Lemma suffix_last_char (a b s' : string) (d : ascii) :
  a ++ b = s' ++ String d "" -> b <> "" ->
  exists b', b = b' ++ String d "".
Proof.
  revert s'; induction a as [|x a IH]; intros s' E Hb.
  - exists s'. exact E.
  - rewrite string_app_cons in E. destruct s' as [|y s''].
    + change ("" ++ String d "") with (String d "") in E.
      injection E as _ E. destruct a; [|discriminate E].
      change ("" ++ b) with b in E. congruence.
    + rewrite string_app_cons in E. injection E as _ E.
      apply (IH s'' E Hb).
Qed.

Lemma lstrip_last (r : string) (d : ascii) :
  Py.isspace d = false ->
  exists e x, Py.lstrip (r ++ String d "") = String e x
              /\ Py.isspace e = false.
Proof.
  intros Hd. induction r as [|y r IH].
  - exists d, "". split; [|exact Hd].
    change ("" ++ String d "") with (String d "").
    cbn [Py.lstrip]. rewrite Hd. reflexivity.
  - rewrite string_app_cons. cbn [Py.lstrip].
    destruct (Py.isspace y) eqn:Hy; [exact IH|].
    exists y, (r ++ String d ""); split; [reflexivity | exact Hy].
Qed.

Lemma break_lf_head (e : ascii) (x : string) :
  Py.isspace e = false ->
  exists a, fst (break_lf (String e x)) = String e a.
Proof.
  intros He. cbn [break_lf].
  destruct (Ascii.eqb_spec e "010") as [->|_]; [discriminate He|].
  destruct (break_lf x) as [a b]. exists a. reflexivity.
Qed.

(** The heading text of a stripped line that matches is not blank. *)
Lemma match_heading_stripped (line g1 g2 : string) :
  match_heading (Py.strip line) = Some (g1, g2) -> Py.strip g2 <> "".
Proof.
  unfold match_heading.
  destruct (span_hashes (Py.strip line)) as [k rest] eqn:Hspan.
  destruct k as [|k]; [discriminate|].
  destruct rest as [|c0 r0]; [discriminate|].
  destruct (Py.isspace c0) eqn:Hc0; [|discriminate].
  apply span_hashes_decompose in Hspan.
  destruct (rstrip_last (Py.lstrip line)) as [E|(s' & d & E & Hd)];
    fold (Py.strip line) in E; rewrite E in Hspan.
  { discriminate Hspan. }
  symmetry in Hspan.
  destruct (suffix_last_char _ _ _ _ Hspan) as [b' Hb']; [discriminate|].
  destruct (lstrip_last b' d Hd) as (e & x & Hl & He).
  rewrite Hb', Hl.
  destruct (break_lf_head e x He) as [a Ha].
  destruct (break_lf (String e x)) as [body tail]. cbn [fst] in Ha.
  destruct (_ || _); [|discriminate]. intros [= _ <-]. rewrite Ha.
  unfold Py.strip. cbn [Py.lstrip]. rewrite He.
  destruct (rstrip_head e a He) as [y ->]. discriminate.
Qed.

(** X18. A header the parser detects is never empty and has no white space
    around it, and the content of a section with a header has no white space
    around it either; so the leaf of such a section always adds its header to
    the header path of its chunks. *)
Theorem detected_header_is_clean (node_text h c : string) :
  header_and_content node_text = (Some h, c) ->
  h <> ""
  /\ Py.strip h = h
  /\ Py.strip c = c
  /\ forall current_headers tl cs pg,
       child_headers_of current_headers
         (TreeElement.mk (Some h) c tl cs pg)
       = (current_headers ++ [h])%list.
Proof.
  unfold header_and_content.
  destruct (section_lines node_text) as [|l0 rest].
  - change (match_heading "") with (@None (string * string)).
    discriminate.
  - destruct (match_heading (Py.strip l0)) as [[g1 g2]|] eqn:E;
      [|discriminate].
    intros [= <- <-].
    pose proof (match_heading_stripped _ _ _ E) as Hne.
    split; [exact Hne|]. split; [apply strip_idem|].
    split; [apply strip_idem|].
    intros current_headers tl cs pg. unfold child_headers_of.
    cbn [TreeElement.header].
    destruct (Py.strip g2); [congruence | reflexivity].
Qed.

(** The hypothesis of X18 holds for a section with a level-2 heading. *)
Lemma detected_header_is_clean_witness :
  "Sub title" <> ""
  /\ Py.strip "Sub title" = "Sub title"
  /\ Py.strip "body text" = "body text"
  /\ forall current_headers tl cs pg,
       child_headers_of current_headers
         (TreeElement.mk (Some "Sub title") "body text" tl cs pg)
       = (current_headers ++ ["Sub title"])%list.
Proof.
  apply (detected_header_is_clean
           ("##  Sub title " ++ LF ++ LF ++ "body text" ++ LF)).
  vm_compute. reflexivity.
Defined.
